(** * ghcn_tools: fixed-width GHCN-daily parsing, verified against its specification

    A shallow embedding of [ghcn_tools.py] together with the parts of the
    Python runtime, of [calendar] and of [pandas] that the module calls.

    - Text is a [string]; a character is a code point below 256 (GHCN files
      are plain ASCII).
    - A Python exception is an explicit [Raise e] result, threaded through a
      small error monad.
    - A Python float is a binary64 number, [spec_float] at precision 53 and
      maximal exponent 1024, with the rounding of [SpecFloat].
    - A dict is a [gmap] with string keys. *)

From Stdlib Require Import ZArith String Ascii List Lia Sorted.
From Stdlib Require Import Floats.SpecFloat.
From stdpp Require Import base option list strings gmap.

Local Open Scope string_scope.
Local Open Scope Z_scope.
Local Open Scope list_scope.

(** ** The Python runtime *)

Module Py.

(** Exceptions the modelled code can raise. *)
Inductive exn : Type :=
  | ValueError
  | KeyError
  | IndexError
  | TypeError
  | IllegalMonthError
  | OSError.

Inductive result (A : Type) : Type :=
  | Ok (a : A)
  | Raise (e : exn).
Arguments Ok {A} a.
Arguments Raise {A} e.

Definition bind {A B : Type} (r : result A) (k : A -> result B) : result B :=
  match r with
  | Ok a => k a
  | Raise e => Raise e
  end.

Definition raises {A : Type} (r : result A) : bool :=
  match r with
  | Ok _ => false
  | Raise _ => true
  end.

(** A list comprehension, or a loop that appends one element per iteration:
    the elements are computed left to right and the first exception ends the
    whole computation. *)
Fixpoint for_each {A B : Type} (f : A -> result B) (l : list A) : result (list B) :=
  match l with
  | [] => Ok []
  | a :: l' =>
      bind (f a) (fun b => bind (for_each f l') (fun bs => Ok (b :: bs)))
  end.

(** A [for] loop over [l] whose body updates a state and may raise. *)
Fixpoint for_loop {S A : Type} (body : S -> A -> result S) (l : list A) (s : S)
  : result S :=
  match l with
  | [] => Ok s
  | a :: l' => bind (body s a) (for_loop body l')
  end.

(** [range(lo, hi)]. *)
Definition range (lo hi : Z) : list Z :=
  (fun i => lo + Z.of_nat i) <$> seq 0 (Z.to_nat (hi - lo)).

(** A dict subscript [d[k]]. *)
Definition getitem {V : Type} (d : gmap string V) (k : string) : result V :=
  match d !! k with
  | Some v => Ok v
  | None => Raise KeyError
  end.

(** *** Floats *)

Definition float : Type := spec_float.
Definition prec : Z := 53.
Definition emax : Z := 1024.

Definition nan : float := S754_nan.
Definition float_eq (x y : float) : bool := SFeqb x y.
Definition float_div (x y : float) : float := SFdiv prec emax x y.
Definition float_of_Z (n : Z) : float := binary_normalize prec emax n 0 false.

(** The binary64 number nearest to [(-1)^neg * m * 10^e10], for [0 <= m]:
    what [float] computes from a decimal literal. *)
Definition float_of_decimal (neg : bool) (m e10 : Z) : float :=
  match m with
  | Z0 => S754_zero neg
  | Zneg _ => S754_nan
  | Zpos _ =>
      if 0 <=? e10
      then binary_normalize prec emax (cond_Zopp neg (m * 10 ^ e10)) 0 false
      else
        let '(q, e, l) := SFdiv_core_binary prec emax m 0 (10 ^ (- e10)) 0 in
        binary_round_aux prec emax neg q e l
  end.

(** *** Strings *)

Definition code (c : ascii) : N := N_of_ascii c.

Definition between (lo hi n : N) : bool := ((lo <=? n) && (n <=? hi))%N.

(** [str.lower] on one character below U+0100: the ASCII capitals and the
    Latin-1 capitals (all of U+00C0..U+00DE but the multiplication sign).
    On these characters lowercasing is one character for one; beyond them,
    which is beyond this model, it is not always so (U+0130 becomes two
    characters). *)
Definition lower_char (c : ascii) : ascii :=
  let n := code c in
  if between 65 90 n || (between 192 222 n && negb (n =? 215)%N)
  then ascii_of_N (n + 32)
  else c.

Fixpoint lower (s : string) : string :=
  match s with
  | EmptyString => EmptyString
  | String c s' => String (lower_char c) (lower s')
  end.

(** The slice [s[start:end]] for offsets that are not negative: it is
    clipped to the string, never an error. *)
Definition slice (s : string) (start end_ : nat) : string :=
  substring start (end_ - start) s.

(** The white space that [int] and [float] skip at both ends of their
    argument: tab to carriage return, the space, and the two Latin-1 spaces
    NEL and NBSP. *)
Definition is_space (c : ascii) : bool :=
  let n := code c in
  between 9 13 n || (n =? 32)%N || (n =? 133)%N || (n =? 160)%N.


(** [str.isascii]: every character is below U+0080. *)
Fixpoint isascii (s : string) : bool :=
  match s with
  | EmptyString => true
  | String c s' => (code c <? 128)%N && isascii s'
  end.

Definition digit_of (c : ascii) : option Z :=
  let n := code c in
  if between 48 57 n then Some (Z.of_N n - 48) else None.

Fixpoint lstrip (s : string) : string :=
  match s with
  | EmptyString => EmptyString
  | String c s' => if is_space c then lstrip s' else s
  end.

Fixpoint rstrip (s : string) : string :=
  match s with
  | EmptyString => EmptyString
  | String c s' =>
      match rstrip s' with
      | EmptyString => if is_space c then EmptyString else String c EmptyString
      | r => String c r
      end
  end.

Definition strip (s : string) : string := rstrip (lstrip s).

(** An optional sign: [true] for a minus. *)
Definition scan_sign (s : string) : bool * string :=
  match s with
  | String "-" s' => (true, s')
  | String "+" s' => (false, s')
  | _ => (false, s)
  end.

(** The rest of a digit part, after a digit: more digits, each of them
    optionally preceded by one underscore.  Returns the digits read, most
    significant first, and the text left over. *)
Fixpoint scan_more_digits (s : string) : list Z * string :=
  match s with
  | String c s' =>
      match digit_of c with
      | Some d => let '(ds, r) := scan_more_digits s' in (d :: ds, r)
      | None =>
          match c, s' with
          | "_"%char, String c' s'' =>
              match digit_of c' with
              | Some d => let '(ds, r) := scan_more_digits s'' in (d :: ds, r)
              | None => ([], s)
              end
          | _, _ => ([], s)
          end
      end
  | EmptyString => ([], s)
  end.

(** A digit part [digit (["_"] digit)*]; an empty list when [s] does not
    start with a digit. *)
Definition scan_digits (s : string) : list Z * string :=
  match s with
  | String c s' =>
      match digit_of c with
      | Some d => let '(ds, r) := scan_more_digits s' in (d :: ds, r)
      | None => ([], s)
      end
  | EmptyString => ([], s)
  end.

Definition number_of (ds : list Z) : Z :=
  fold_left (fun acc d => 10 * acc + d) ds 0.

(** [int(s)] in base 10. *)
Definition int (s : string) : result Z :=
  let '(neg, s1) := scan_sign (strip s) in
  match scan_digits s1 with
  | ((_ :: _) as ds, EmptyString) => Ok (cond_Zopp neg (number_of ds))
  | _ => Raise ValueError
  end.

(** The exponent of a decimal literal: nothing, or [e], a sign and a digit
    part, up to the end of the text. *)
Definition scan_exponent (s : string) : option Z :=
  match s with
  | EmptyString => Some 0
  | String c s' =>
      if (code c =? 101)%N || (code c =? 69)%N
      then
        let '(neg, s1) := scan_sign s' in
        match scan_digits s1 with
        | ((_ :: _) as ds, EmptyString) => Some (cond_Zopp neg (number_of ds))
        | _ => None
        end
      else None
  end.

(** [float(s)]: after stripping, a sign followed by [inf], [infinity],
    [nan] (in any case) or by a decimal literal with at least one digit
    before or after the point. *)
Definition float_of_str (s : string) : result float :=
  let '(neg, s1) := scan_sign (strip s) in
  let word := lower s1 in
  if (word =? "inf")%string || (word =? "infinity")%string
  then Ok (S754_infinity neg)
  else if (word =? "nan")%string then Ok S754_nan
  else
    let '(ip, s2) := scan_digits s1 in
    let '(fp, s3) :=
      match s2 with
      | String "." s2' => scan_digits s2'
      | _ => ([], s2)
      end in
    let dotted_ok :=
      match ip, s2 with
      | [], String "." _ => negb (bool_decide (fp = []))
      | [], _ => false
      | _ :: _, _ => true
      end in
    if dotted_ok
    then
      match scan_exponent s3 with
      | Some e =>
          Ok (float_of_decimal neg (number_of (ip ++ fp))
                (e - Z.of_nat (length fp)))
      | None => Raise ValueError
      end
    else Raise ValueError.

(** *** Text files *)

(** The lines that a loop over a text file yields.  The text is what reading
    the file gives: decoded, with every line end as one line feed.  It is cut
    after each line feed, which stays at the end of its line; the last line
    has none when the text does not end with one. *)
Fixpoint file_lines (text : string) : list string :=
  match text with
  | EmptyString => []
  | String c text' =>
      if (code c =? 10)%N then String c EmptyString :: file_lines text'
      else
        match file_lines text' with
        | [] => [String c EmptyString]
        | line :: lines => String c line :: lines
        end
  end.

(** The files that can be opened for reading, by name, each with its
    text. *)
Definition file_system : Type := string -> option string.

(** A name with a null character is not a file name. *)
Fixpoint has_null (s : string) : bool :=
  match s with
  | EmptyString => false
  | String c s' => (code c =? 0)%N || has_null s'
  end.

(** [open(filename, 'r')]: the text of the file; a [ValueError] for a name
    with a null character, and an [OSError] (which stands for its
    subclasses too, such as [FileNotFoundError]) when the file cannot be
    opened. *)
Definition open_ (fs : file_system) (filename : string) : result string :=
  if has_null filename then Raise ValueError
  else
    match fs filename with
    | Some text => Ok text
    | None => Raise OSError
    end.

End Py.

Notation "'let*' x ':=' r 'in' k" := (Py.bind r (fun x => k))
  (at level 10, x name, r at level 100, k at level 200, only parsing).
Notation "'let*' ' p ':=' r 'in' k" := (Py.bind r (fun p => k))
  (at level 10, p pattern, r at level 100, k at level 200, only parsing).

(** *** Dynamically typed values

    The objects that end up in the tables: [str], [float] and [int]. *)

Inductive value : Type :=
  | VStr (s : string)
  | VFloat (x : Py.float)
  | VInt (n : Z).

#[global] Instance spec_float_eq_dec : EqDecision spec_float.
Proof. solve_decision. Defined.

#[global] Instance value_eq_dec : EqDecision value.
Proof. solve_decision. Defined.

(** An operand that has to be an [int]. *)
Definition as_int (v : value) : Py.result Z :=
  match v with
  | VInt n => Py.Ok n
  | _ => Py.Raise Py.TypeError
  end.

(** ** The standard module [calendar] *)

Module Calendar.
Import Py.

Definition February : Z := 2.

Definition mdays : list Z := [0; 31; 28; 31; 30; 31; 30; 31; 31; 30; 31; 30; 31].

Definition isleap (year : Z) : bool :=
  (year mod 4 =? 0) && (negb (year mod 100 =? 0) || (year mod 400 =? 0)).

Definition days_before_year (year : Z) : Z :=
  let y := year - 1 in
  y * 365 + y / 4 - y / 100 + y / 400.

Definition days_before_month (year month : Z) : Z :=
  foldr Z.add 0 (take (Z.to_nat month) mdays)
  + (if (2 <? month) && isleap year then 1 else 0).

(** [datetime.date(year, month, day).toordinal()]. *)
Definition toordinal (year month day : Z) : Z :=
  days_before_year year + days_before_month year month + day.

(** Monday is 0.  Years that [datetime] does not have are first mapped into
    the 400-year cycle around 2000. *)
Definition weekday (year month day : Z) : Z :=
  let year := if (1 <=? year) && (year <=? 9999) then year
              else 2000 + year mod 400 in
  (toordinal year month day + 6) mod 7.

(** [monthrange(year, month)]: the weekday of the first day of the month,
    and the number of days of the month. *)
Definition monthrange (year month : Z) : result (Z * Z) :=
  if negb ((1 <=? month) && (month <=? 12)) then Raise IllegalMonthError
  else
    let day1 := weekday year month 1 in
    let ndays := nth (Z.to_nat month) mdays 0
                 + (if (month =? February) && isleap year then 1 else 0) in
    Ok (day1, ndays).

End Calendar.

(** ** The part of [pandas] that the module uses *)

Module Pandas.
Import Py.

(** A frame: row labels, column labels, and the cells row by row. *)
Record DataFrame : Type := {
  index : list value;
  columns : list value;
  data : list (list value)
}.

Definition missing : value := VFloat nan.

(** Position of the first column that carries [label]. *)
Fixpoint position (label : value) (labels : list value) : option nat :=
  match labels with
  | [] => None
  | l :: labels' =>
      if decide (l = label) then Some 0%nat
      else S <$> position label labels'
  end.

Definition cell (row : list value) (j : nat) : value := nth j row missing.

Definition pad (width : nat) (row : list value) : list value :=
  row ++ replicate (width - length row) missing.

(** [pd.DataFrame(rows, columns=cols)] for a list of rows: short rows are
    filled up with missing values to the width of the longest one, and a
    width that differs from the number of column labels is rejected. *)
Definition new (rows : list (list value)) (cols : list value) : result DataFrame :=
  match rows with
  | [] => Ok {| index := []; columns := cols; data := [] |}
  | _ :: _ =>
      let width := max_list (length <$> rows) in
      if decide (width = length cols)
      then Ok {| index := (fun i => VInt (Z.of_nat i)) <$> seq 0 (length rows);
                 columns := cols;
                 data := pad width <$> rows |}
      else Raise ValueError
  end.

(** [df.loc[:, label]]: one column. *)
Definition loc_column (df : DataFrame) (label : value) : result (list value) :=
  match position label (columns df) with
  | Some j => Ok ((fun row => cell row j) <$> data df)
  | None => Raise KeyError
  end.

(** [series.iloc[0]]. *)
Definition iloc0 (series : list value) : result value :=
  match series with
  | v :: _ => Ok v
  | [] => Raise IndexError
  end.

Definition without {A : Type} (j : nat) (l : list A) : list A :=
  take j l ++ drop (S j) l.

(** [df.set_index(label)]: the column becomes the row labels. *)
Definition set_index (df : DataFrame) (label : value) : result DataFrame :=
  match position label (columns df) with
  | Some j =>
      Ok {| index := (fun row => cell row j) <$> data df;
            columns := without j (columns df);
            data := without j <$> data df |}
  | None => Raise KeyError
  end.

(** [df.loc[:, labels]]: the listed columns, in the order of the list. *)
Definition loc_columns (df : DataFrame) (labels : list value) : result DataFrame :=
  let* js := for_each (fun label => match position label (columns df) with
                                     | Some j => Ok j
                                     | None => Raise KeyError
                                     end) labels in
  Ok {| index := index df;
        columns := labels;
        data := (fun row => cell row <$> js) <$> data df |}.

(** [df.transpose()]. *)
Definition transpose (df : DataFrame) : DataFrame :=
  {| index := columns df;
     columns := index df;
     data := (fun j => (fun row => cell row j) <$> data df)
               <$> seq 0 (length (columns df)) |}.

(** A row in which the cell of every column that carries [label] is
    replaced by [v]. *)
Definition overwrite (labels : list value) (label v : value) (row : list value)
  : list value :=
  imap (fun j c => if bool_decide (labels !! j = Some label) then v else c) row.

(** [df[label] = values], one value per row: every column of that label is
    overwritten; when there is none, the column is added at the right. *)
Definition setitem (df : DataFrame) (label : value) (values : list value) : DataFrame :=
  match position label (columns df) with
  | Some _ =>
      {| index := index df;
         columns := columns df;
         data := zip_with (fun row v => overwrite (columns df) label v row)
                   (data df) values |}
  | None =>
      {| index := index df;
         columns := columns df ++ [label];
         data := zip_with (fun row v => row ++ [v]) (data df) values |}
  end.

(** [df[label] = v] for a scalar [v]. *)
Definition setitem_scalar (df : DataFrame) (label : value) (v : value) : DataFrame :=
  setitem df label (replicate (length (data df)) v).

(** Keys of a grouping, sorted and without repetition. *)
Definition key_ltb (k k' : Z * Z) : bool :=
  (k.1 <? k'.1) || ((k.1 =? k'.1) && (k.2 <? k'.2)).

Fixpoint insert_key (k : Z * Z) (ks : list (Z * Z)) : list (Z * Z) :=
  match ks with
  | [] => [k]
  | k' :: ks' =>
      if key_ltb k k' then k :: ks
      else if decide (k = k') then ks
      else k' :: insert_key k ks'
  end.

Definition sorted_keys (ks : list (Z * Z)) : list (Z * Z) :=
  foldr insert_key [] ks.

(** The rows of [df] selected by a list of flags, with their labels. *)
Definition select_rows (df : DataFrame) (keep : list bool) : DataFrame :=
  {| index := (fun p => p.1) <$> filter (fun p => p.2 = true) (zip (index df) keep);
     columns := columns df;
     data := (fun p => p.1) <$> filter (fun p => p.2 = true) (zip (data df) keep) |}.

(** [df.groupby([a, b])] on two integer columns: the groups in the order of
    their keys, each with all the columns of [df]. *)
Definition groupby2 (df : DataFrame) (a b : value)
  : result (list ((Z * Z) * DataFrame)) :=
  let* ca := loc_column df a in
  let* cb := loc_column df b in
  let* ka := for_each as_int ca in
  let* kb := for_each as_int cb in
  let keys := zip ka kb in
  Ok ((fun k => (k, select_rows df ((fun k' => bool_decide (k' = k)) <$> keys)))
          <$> sorted_keys keys).

(** The calls of [f] that [grouped.apply(f)] makes: the frames that [f]
    returns for the groups, in the order of the groups.  pandas then stacks
    these pieces into one frame; that last step is not modelled, and it can
    raise when the calls have all returned (it does when a piece has a
    repeated column label and the pieces differ in their columns). *)
Definition apply (groups : list ((Z * Z) * DataFrame))
    (f : DataFrame -> result DataFrame) : result (list ((Z * Z) * DataFrame)) :=
  for_each (fun g => let* piece := f g.2 in Ok (g.1, piece)) groups.

End Pandas.

(** ** ghcn_tools.py *)

Import Py Calendar Pandas.

(** *** Helper functions *)

Definition trimmer (string : String.string) (start_idx end_idx : nat)
  : String.string :=
  lower (slice string start_idx end_idx).

Definition to_int (string : String.string) (start_idx end_idx : nat)
  : result Z :=
  int (trimmer string start_idx end_idx).

Definition to_float (string : String.string) (start_idx end_idx : nat)
  : result float :=
  float_of_str (trimmer string start_idx end_idx).

Definition FALSE_VALUES : gmap string value :=
  {[ "str" := VStr ""; "float" := VFloat nan; "int" := VInt 0 ]}.

Definition CONVERSIONS : gmap string (string -> nat -> nat -> result value) :=
  {[ "str" := fun s a b => Ok (VStr (trimmer s a b));
     "float" := fun s a b => let* x := to_float s a b in Ok (VFloat x);
     "int" := fun s a b => let* n := to_int s a b in Ok (VInt n) ]}.

(** *** The station file *)

Definition meta_columns : list value :=
  VStr <$> ["id"; "lat"; "lon"; "elev"; "state"; "name"; "gsn_flag";
            "hcn_flag"; "wmo_id"].

Definition start_idxs : list nat := [0; 12; 21; 31; 38; 41; 72; 76; 80]%nat.
Definition end_idxs : list nat := [11; 20; 30; 37; 40; 71; 75; 79; 85]%nat.
Definition types : list string :=
  ["str"; "float"; "float"; "float"; "str"; "str"; "str"; "str"; "int"].

(** The body of the inner loop: one field of one line. *)
Definition load_field (line : string) (typ : string) (start end_ : nat)
  : result value :=
  let length := String.length line in
  if (end_ <? length)%nat
  then let* convert := getitem CONVERSIONS typ in convert line start end_
  else getitem FALSE_VALUES typ.

(** The inner loop: [new_data] for one line. *)
Definition load_line (line : string) : result (list value) :=
  for_loop (fun new_data '(typ, (start, end_)) =>
              let* v := load_field line typ start end_ in
              Ok (new_data ++ [v]))
           (zip types (zip start_idxs end_idxs)) [].

(** [load_ghcn_meta], on the lines that iterating over the file yields. *)
Definition load_ghcn_meta (f : list string) : result DataFrame :=
  let data := [meta_columns] in
  let* data := for_loop (fun data line =>
                           let* new_data := load_line line in
                           Ok (data ++ [new_data])) f data in
  match data with
  | header :: rows => Pandas.new rows header
  | [] => Raise IndexError
  end.

(** [load_ghcn_meta(filename)] as a whole: the file is opened, and the loop
    runs over its lines. *)
Definition load_ghcn_meta_file (fs : file_system) (filename : string)
  : result DataFrame :=
  let* f := open_ fs filename in
  load_ghcn_meta (file_lines f).

(** *** The daily file *)

Definition load_year (line : string) : result Z := to_int line 11 15.

Definition load_month (line : string) : result Z := to_int line 15 17.

Definition WEATHER_TYPE_LOOKUP : gmap string string :=
  list_to_map
    [ ("wt01", "wt_fog");
      ("wt02", "wt_heavy_fog");
      ("wt03", "wt_thunder");
      ("wt04", "wt_ice");
      ("wt05", "wt_hail");
      ("wt06", "wt_rime");
      ("wt07", "wt_dust_sand");
      ("wt08", "wt_smoke");
      ("wt09", "wt_blowing_snow");
      ("wt10", "wt_tornado");
      ("wt11", "wt_high_wind");
      ("wt12", "wt_blowing_spray");
      ("wt13", "wt_mist");
      ("wt14", "wt_drizzle");
      ("wt15", "wt_freezing_drizzle");
      ("wt16", "wt_rain");
      ("wt17", "wt_freezing_rain");
      ("wt18", "wt_snow");
      ("wt19", "wt_unknown_precip");
      ("wt21", "wt_ground_fog");
      ("wt22", "wt_ice_fog") ].

Definition load_varname (line : string) : string :=
  let varname := trimmer line 17 21 in
  match WEATHER_TYPE_LOOKUP !! varname with
  | Some name => name
  | None => varname
  end.

(** The variables whose values are stored in tenths. *)
Definition scaled_variables : list string :=
  ["prcp"; "tmax"; "tmin"; "awnd"; "evap"; "mdev";
   "mdpr"; "mdtn"; "mdtx"; "mnpn"; "mxpn";
   "tobs"; "wesd"; "wesf"; "wsf1"; "wsf2";
   "wsf5"; "wsfg"; "wsfi"; "wsfm"].

Definition daily_number_postprocess (number : float) (varname : string) : float :=
  if float_eq number (float_of_Z (-9999)) then nan
  else if bool_decide (varname ∈ scaled_variables)
       then float_div number (float_of_Z 10)
       else number.

Definition start_idx (day : nat) : nat := (21 + day * 8)%nat.
Definition end_idx (day : nat) : nat := (start_idx day + 5)%nat.

Definition load_days (line : string) (varname : string) (year month : Z)
  : result (list float) :=
  let* '(_, ndays) := monthrange year month in
  for_each (fun day =>
              let* number := to_float line (start_idx day) (end_idx day) in
              Ok (daily_number_postprocess number varname))
           (seq 0 (Z.to_nat ndays)).

Definition update_data (data : list (list value)) (line : string)
  : result (list (list value)) :=
  let var := load_varname line in
  let* year := load_year line in
  let* month := load_month line in
  let* new_data := load_days line var year month in
  Ok (data ++ [[VInt year; VInt month; VStr var] ++ (VFloat <$> new_data)]).

Definition daily_columns : list value :=
  [VStr "year"; VStr "month"; VStr "varname"] ++ (VInt <$> range 1 32).

(** [load_ghcn_daily], on the lines that iterating over the file yields. *)
Definition load_ghcn_daily (f : list string) : result DataFrame :=
  let data := [daily_columns] in
  let* data := for_loop update_data f data in
  match data with
  | header :: rows => Pandas.new rows header
  | [] => Raise IndexError
  end.

(** [load_ghcn_daily(filename)] as a whole. *)
Definition load_ghcn_daily_file (fs : file_system) (filename : string)
  : result DataFrame :=
  let* f := open_ fs filename in
  load_ghcn_daily (file_lines f).

(** *** From days in columns to days in rows *)

Definition exchange_row_column (df : DataFrame) : result DataFrame :=
  let* years := loc_column df (VStr "year") in
  let* year := iloc0 years in
  let* months := loc_column df (VStr "month") in
  let* month := iloc0 months in
  let* y := as_int year in
  let* m := as_int month in
  let* '(_, days) := monthrange y m in
  let* df := set_index df (VStr "varname") in
  let* df := loc_columns df (VInt <$> range 1 (days + 1)) in
  let df := transpose df in
  let df := setitem_scalar df (VStr "year") year in
  let df := setitem_scalar df (VStr "month") month in
  let df := setitem df (VStr "day") (index df) in
  Ok df.

(** [transpose_ghcn], up to the stacking of the pieces: the piece that
    [exchange_row_column] returns for each (year, month) group.  A result
    [Ok] says that no call of [exchange_row_column] has raised, not that
    the stacking returns. *)
Definition transpose_ghcn (df : DataFrame) : result (list ((Z * Z) * DataFrame)) :=
  let* groups := groupby2 df (VStr "year") (VStr "month") in
  Pandas.apply groups exchange_row_column.

(** [load_ghcn_timeseries], on the lines of the file and up to the same
    stacking. *)
Definition load_ghcn_timeseries (f : list string)
  : result (list ((Z * Z) * DataFrame)) :=
  let* df := load_ghcn_daily f in
  transpose_ghcn df.

(** *** Well-formed frames *)

(** Every row has one label and one cell per column. *)
Definition rectangular (df : DataFrame) : Prop :=
  length (index df) = length (data df)
  /\ Forall (fun row => length row = length (columns df)) (data df).

(** A row of the wide daily table: year, month, name and 31 day slots. *)
Definition wide_row (year month : Z) (row : list value) : Prop :=
  length row = 34%nat /\ cell row 0 = VInt year /\ cell row 1 = VInt month.

(** The row that [update_data] appends for a line. *)
Definition daily_row_of (line : string) : result (list value) :=
  let* year := load_year line in
  let* month := load_month line in
  let* new_data := load_days line (load_varname line) year month in
  Ok ([VInt year; VInt month; VStr (load_varname line)] ++ (VFloat <$> new_data)).

(** *** Sample lines *)

Definition newline : string := String "010"%char "".

Definition station_line : string :=
  "USC00011084  32.9000  -85.9667  126.2 AL MADISON CITY HALL               "
  +:+ newline.

(** The same station with a latitude that is not a number. *)
Definition malformed_station_line : string :=
  "USC00011084  3x.9000  -85.9667  126.2 AL MADISON CITY HALL               "
  +:+ newline.

(** The same station in a line of full width: the columns of the flags and
    of the WMO number are there, and blank. *)
Definition blank_wmo_line : string :=
  "USC00011084  32.9000  -85.9667  126.2 AL MADISON CITY HALL                           "
  +:+ newline.

(** The same station in the last line of a file that does not end with a
    line feed: 85 characters, of which the last five, the columns of the WMO
    number, are not a number. *)
Definition malformed_wmo_line : string :=
  "USC00011084  32.9000  -85.9667  126.2 AL MADISON CITY HALL                      7222x".

(** Precipitation of February 2021: 12.5 on the first day, no observation on
    the second, and the three slots after the 28th marked as missing. *)
Definition daily_prcp_line : string :=
  "USC00011084202102PRCP00125   -9999       0       0       0       0       0       0       0       0       0       0       0       0       0       0       0       0       0       0       0       0       0       0       0       0       0       0   -9999   -9999   -9999   "
  +:+ newline.

(** Maximum temperature of the same month. *)
Definition daily_tmax_line : string :=
  "USC00011084202102TMAX  211     200     150     150     150     150     150     150     150     150     150     150     150     150     150     150     150     150     150     150     150     150     150     150     150     150     150     150   -9999   -9999   -9999   "
  +:+ newline.

(** Fog in February 2020, on the first day only. *)
Definition daily_wt01_line : string :=
  "USC00011084202002WT0100001   -9999   -9999   -9999   -9999   -9999   -9999   -9999   -9999   -9999   -9999   -9999   -9999   -9999   -9999   -9999   -9999   -9999   -9999   -9999   -9999   -9999   -9999   -9999   -9999   -9999   -9999   -9999   -9999   -9999   -9999   "
  +:+ newline.

(** The precipitation line cut after the value of the first day. *)
Definition truncated_daily_line : string := "USC00011084202102PRCP00125".

(** A line that ends after its header. *)
Definition header_only_line : string := "USC00011084202102PRCP" +:+ newline.

(** A line of a thirteenth month. *)
Definition month_13_line : string :=
  "USC00011084202113PRCP00125   -9999   " +:+ newline.

(** Maximum temperature of January 2021, a month of 31 days. *)
Definition daily_january_line : string :=
  "USC00011084202101TMAX  100     100     100     100     100     100     100     100     100     100     100     100     100     100     100     100     100     100     100     100     100     100     100     100     100     100     100     100     100     100     100   "
  +:+ newline.

(** Two files by name, and no other: a station file whose second line has
    the malformed latitude, and a daily file of January 2021 whose second
    line is of a thirteenth month. *)
Definition sample_files : file_system :=
  fun filename =>
    if String.eqb filename "ghcnd-stations.txt"
    then Some (station_line +:+ malformed_station_line)
    else if String.eqb filename "USC00011084.dly"
    then Some (daily_january_line +:+ month_13_line)
    else None.

(** The group of February 2021 in a wide table: two variables, 28 values
    each, and the slots of the days 29 to 31 left unset. *)
Definition february_2021_group : DataFrame :=
  {| index := [VInt 1; VInt 2];
     columns := daily_columns;
     data := pad 34
               <$> [ [VInt 2021; VInt 2; VStr "prcp"]
                       ++ replicate 28 (VFloat (float_of_Z 0));
                     [VInt 2021; VInt 2; VStr "tmax"]
                       ++ replicate 28 (VFloat (float_of_Z 15)) ] |}.

(** The group of February 2021 with stray values in the slots of the days
    29 to 31. *)
Definition february_2021_group_stray : DataFrame :=
  {| index := [VInt 1; VInt 2];
     columns := daily_columns;
     data := [ [VInt 2021; VInt 2; VStr "prcp"]
                 ++ replicate 28 (VFloat (float_of_Z 0))
                 ++ replicate 3 (VFloat (float_of_Z 99));
               [VInt 2021; VInt 2; VStr "tmax"]
                 ++ replicate 28 (VFloat (float_of_Z 15))
                 ++ replicate 3 (VFloat (float_of_Z 99)) ] |}.

(** The same group in the leap year 2020, with 29 values and two unset
    slots. *)
Definition february_2020_group : DataFrame :=
  {| index := [VInt 0];
     columns := daily_columns;
     data := pad 34
               <$> [ [VInt 2020; VInt 2; VStr "prcp"]
                       ++ replicate 29 (VFloat (float_of_Z 0)) ] |}.

(** * Properties *)

(** ** The error monad *)

Section Loops.
Context {A B : Type}.
Implicit Types (f : A -> result B) (l : list A).

(** A loop that appends one computed element per iteration is a
    comprehension. *)
Lemma for_loop_append f l (acc : list B) :
  for_loop (fun acc a => let* b := f a in Ok (acc ++ [b])) l acc
  = (let* bs := for_each f l in Ok (acc ++ bs)).
Proof.
  revert acc. induction l as [|a l IH]; intros acc; simpl.
  - by rewrite app_nil_r.
  - destruct (f a) as [b|e]; simpl; [|reflexivity].
    rewrite IH. destruct (for_each f l); simpl; [|reflexivity].
    by rewrite <- app_assoc.
Qed.

Lemma for_each_Forall2 f l bs :
  for_each f l = Ok bs -> Forall2 (fun a b => f a = Ok b) l bs.
Proof.
  revert bs. induction l as [|a l IH]; simpl; intros bs H.
  - injection H as <-. constructor.
  - destruct (f a) as [b|e] eqn:Hb; simpl in H; [|discriminate].
    destruct (for_each f l) as [bs'|e]; simpl in H; [|discriminate].
    injection H as <-. constructor; auto.
Qed.

Lemma for_each_length f l bs :
  for_each f l = Ok bs -> length bs = length l.
Proof.
  intros H. symmetry. eapply Forall2_length, for_each_Forall2, H.
Qed.

Lemma for_each_lookup f l bs i a :
  for_each f l = Ok bs -> l !! i = Some a ->
  exists b, bs !! i = Some b /\ f a = Ok b.
Proof.
  intros H Ha. apply for_each_Forall2 in H.
  destruct (Forall2_lookup_l _ _ _ _ _ H Ha) as (b & Hb & Hf). eauto.
Qed.

(** Total on a list whose elements all succeed. *)
Lemma for_each_total f l :
  (forall a, a ∈ l -> raises (f a) = false) ->
  exists bs, for_each f l = Ok bs.
Proof.
  induction l as [|a l IH]; simpl; intros H; [eauto|].
  destruct (f a) as [b|e] eqn:Hb.
  - destruct IH as [bs ->]; [|simpl; eauto].
    intros a' Ha'. apply H. by right.
  - specialize (H a (list_elem_of_here _ _)). rewrite Hb in H. discriminate.
Qed.

(** One failing element makes the comprehension fail; when every failure
    is the same exception, with that exception. *)
Lemma for_each_raises f l a :
  a ∈ l -> raises (f a) = true -> raises (for_each f l) = true.
Proof.
  induction l as [|a' l IH]; intros Ha Hf; [by apply elem_of_nil in Ha|].
  simpl. destruct (f a') as [b|e] eqn:Hb; simpl; [|reflexivity].
  apply elem_of_cons in Ha as [->|Ha].
  - rewrite Hb in Hf. discriminate.
  - specialize (IH Ha Hf). destruct (for_each f l); [discriminate|reflexivity].
Qed.

Lemma for_each_exn f l (e0 : exn) e :
  (forall a e', a ∈ l -> f a = Raise e' -> e' = e0) ->
  for_each f l = Raise e -> e = e0.
Proof.
  induction l as [|a l IH]; simpl; intros Hf; [discriminate|].
  destruct (f a) as [b|e'] eqn:Hb; simpl.
  - destruct (for_each f l); simpl; [discriminate|].
    intros [= <-]. apply IH; [|done].
    intros a' e' Ha'. apply Hf. by right.
  - intros [= <-]. eapply Hf; [left|done].
Qed.
End Loops.

Section ForLoop.
Context {S A : Type}.
Implicit Types (body : S -> A -> result S) (l : list A).

Lemma for_loop_ext body body' l s :
  (forall s' a, body s' a = body' s' a) ->
  for_loop body l s = for_loop body' l s.
Proof.
  intros H. revert s. induction l as [|a l IH]; intros s; simpl; [done|].
  rewrite H. destruct (body' s a); simpl; auto.
Qed.

(** An iteration that fails in every state makes the loop fail. *)
Lemma for_loop_raises body l a s :
  a ∈ l -> (forall s', raises (body s' a) = true) ->
  raises (for_loop body l s) = true.
Proof.
  revert s. induction l as [|a' l IH]; intros s Ha Hf;
    [by apply elem_of_nil in Ha|].
  simpl. destruct (body s a') as [s'|e] eqn:Hb; simpl; [|reflexivity].
  apply elem_of_cons in Ha as [->|Ha]; [|by apply IH].
  specialize (Hf s). rewrite Hb in Hf. discriminate.
Qed.

End ForLoop.

Lemma raises_bind_Ok {A B : Type} (r : result A) (g : A -> B) :
  raises (let* a := r in Ok (g a)) = raises r.
Proof. by destruct r. Qed.

(** ** Text *)

Lemma length_lower (s : string) : String.length (lower s) = String.length s.
Proof. induction s as [|c s IH]; simpl; congruence. Qed.

Lemma get_lower (s : string) (k : nat) :
  String.get k (lower s) = lower_char <$> String.get k s.
Proof.
  revert k. induction s as [|c s IH]; intros [|k]; simpl; auto.
Qed.




Lemma substring_beyond (n m : nat) (s : string) :
  (String.length s <= n)%nat -> substring n m s = "".
Proof.
  revert n. induction s as [|c s IH]; intros n H; simpl in *.
  - by destruct n, m.
  - destruct n as [|n]; [lia|]. apply IH. lia.
Qed.

Lemma length_substring (n m : nat) (s : string) :
  (n + m <= String.length s)%nat -> String.length (substring n m s) = m.
Proof.
  revert n m. induction s as [|c s IH]; intros n m H; simpl in *.
  - by destruct n, m; simpl in *; try lia.
  - destruct n as [|n]; simpl.
    + destruct m as [|m]; simpl; [reflexivity|]. f_equal. apply (IH 0%nat). lia.
    + apply IH. lia.
Qed.

(** A slice that starts at or after the end of the line is empty. *)
Lemma slice_beyond (line : string) (start end_ : nat) :
  (String.length line <= start)%nat -> slice line start end_ = "".
Proof. apply substring_beyond. Qed.

(** A slice that the line fully contains has the width of the field, and
    holds the characters of the line at the same offsets. *)
Lemma length_slice (line : string) (start end_ : nat) :
  (start <= end_)%nat -> (end_ <= String.length line)%nat ->
  String.length (slice line start end_) = (end_ - start)%nat.
Proof. intros H1 H2. apply length_substring. lia. Qed.

Lemma get_slice (line : string) (start end_ k : nat) :
  (k < end_ - start)%nat ->
  String.get k (slice line start end_) = String.get (k + start) line.
Proof. apply substring_correct1. Qed.

(** ** Conversions *)

(** [int] and [float] fail with [ValueError] and with nothing else. *)
Lemma int_exn (s : string) (e : exn) : int s = Raise e -> e = ValueError.
Proof.
  unfold int. repeat case_match; intros [=]; auto.
Qed.

Lemma float_of_str_exn (s : string) (e : exn) :
  float_of_str s = Raise e -> e = ValueError.
Proof.
  unfold float_of_str. repeat case_match; intros [=]; auto.
Qed.

Lemma int_empty : int "" = Raise ValueError.
Proof. reflexivity. Qed.

Lemma float_of_str_empty : float_of_str "" = Raise ValueError.
Proof. reflexivity. Qed.

Lemma CONVERSIONS_str :
  getitem CONVERSIONS "str" = Ok (fun s a b => Ok (VStr (trimmer s a b))).
Proof. reflexivity. Qed.

Lemma CONVERSIONS_float :
  getitem CONVERSIONS "float"
  = Ok (fun s a b => let* x := to_float s a b in Ok (VFloat x)).
Proof. reflexivity. Qed.

Lemma CONVERSIONS_int :
  getitem CONVERSIONS "int"
  = Ok (fun s a b => let* n := to_int s a b in Ok (VInt n)).
Proof. reflexivity. Qed.

Lemma FALSE_VALUES_str : getitem FALSE_VALUES "str" = Ok (VStr "").
Proof. reflexivity. Qed.

Lemma FALSE_VALUES_float : getitem FALSE_VALUES "float" = Ok (VFloat nan).
Proof. reflexivity. Qed.

Lemma FALSE_VALUES_int : getitem FALSE_VALUES "int" = Ok (VInt 0).
Proof. reflexivity. Qed.

(** ** The station file *)

(** The three parallel lists as one schema. *)
Lemma meta_schema :
  zip types (zip start_idxs end_idxs)
  = [("str", (0, 11)); ("float", (12, 20)); ("float", (21, 30));
     ("float", (31, 37)); ("str", (38, 40)); ("str", (41, 71));
     ("str", (72, 75)); ("str", (76, 79)); ("int", (80, 85))]%nat.
Proof. reflexivity. Qed.

Lemma load_field_str (line : string) (start end_ : nat) :
  load_field line "str" start end_
  = if (end_ <? String.length line)%nat
    then Ok (VStr (trimmer line start end_))
    else Ok (VStr "").
Proof.
  unfold load_field. rewrite CONVERSIONS_str, FALSE_VALUES_str.
  by destruct (_ <? _)%nat.
Qed.

Lemma load_field_float (line : string) (start end_ : nat) :
  load_field line "float" start end_
  = if (end_ <? String.length line)%nat
    then let* x := to_float line start end_ in Ok (VFloat x)
    else Ok (VFloat nan).
Proof.
  unfold load_field. rewrite CONVERSIONS_float, FALSE_VALUES_float.
  by destruct (_ <? _)%nat.
Qed.

Lemma load_field_int (line : string) (start end_ : nat) :
  load_field line "int" start end_
  = if (end_ <? String.length line)%nat
    then let* n := to_int line start end_ in Ok (VInt n)
    else Ok (VInt 0).
Proof.
  unfold load_field. rewrite CONVERSIONS_int, FALSE_VALUES_int.
  by destruct (_ <? _)%nat.
Qed.

Lemma load_line_for_each (line : string) :
  load_line line
  = for_each (fun '(typ, (start, end_)) => load_field line typ start end_)
             (zip types (zip start_idxs end_idxs)).
Proof.
  unfold load_line.
  set (f := fun '(typ, (start, end_)) => load_field line typ start end_).
  rewrite (for_loop_ext _ (fun acc a => let* v := f a in Ok (acc ++ [v]))).
  - rewrite for_loop_append. by destruct (for_each _ _).
  - by intros acc (typ & start & end_).
Qed.

Lemma schema_types (typ : string) (start end_ : nat) :
  (typ, (start, end_)) ∈ zip types (zip start_idxs end_idxs) ->
  typ = "str" \/ typ = "float" \/ typ = "int".
Proof.
  rewrite meta_schema. intros Hin.
  repeat (apply elem_of_cons in Hin as [[= -> _ _]|Hin]; [auto|]).
  by apply elem_of_nil in Hin.
Qed.

(** Each field of the station schema either has a value or fails with
    [ValueError]; the string fields never fail. *)
Lemma load_field_exn (line typ : string) (start end_ : nat) (e : exn) :
  (typ, (start, end_)) ∈ zip types (zip start_idxs end_idxs) ->
  load_field line typ start end_ = Raise e -> e = ValueError.
Proof.
  intros Hin. destruct (schema_types _ _ _ Hin) as [->|[->| ->]].
  - rewrite load_field_str. by destruct (_ <? _)%nat.
  - rewrite load_field_float. destruct (_ <? _)%nat; [|done].
    unfold to_float. destruct (float_of_str _) eqn:H; simpl; [done|].
    intros [= <-]. by apply float_of_str_exn in H.
  - rewrite load_field_int. destruct (_ <? _)%nat; [|done].
    unfold to_int. destruct (int _) eqn:H; simpl; [done|].
    intros [= <-]. by apply int_exn in H.
Qed.

Lemma load_line_exn (line : string) (e : exn) :
  load_line line = Raise e -> e = ValueError.
Proof.
  rewrite load_line_for_each. apply for_each_exn.
  intros (typ & start & end_) e'. apply load_field_exn.
Qed.

Lemma load_line_length (line : string) (row : list value) :
  load_line line = Ok row -> length row = 9%nat.
Proof.
  rewrite load_line_for_each. intros H. by apply for_each_length in H.
Qed.

(** A frame built from rows that all have the width of the header keeps
    them as they are. *)
Lemma new_rectangular (rows : list (list value)) (cols : list value) :
  Forall (fun row => length row = length cols) rows ->
  Pandas.new rows cols
  = Ok {| index := (fun i => VInt (Z.of_nat i)) <$> seq 0 (length rows);
          columns := cols;
          data := rows |}.
Proof.
  intros H. destruct rows as [|row rows]; [reflexivity|].
  unfold Pandas.new.
  assert (max_list (length <$> row :: rows) = length cols) as ->.
  { revert H. generalize (length cols) as n. intros n H.
    inversion_clear H as [|? ? Hrow Hrows]. simpl. rewrite Hrow.
    induction Hrows as [|r rs Hr _ IH]; simpl; [lia|]. rewrite Hr. lia. }
  rewrite decide_True by done. do 2 f_equal.
  rewrite <- (list_fmap_id (row :: rows)) at 2.
  apply Forall_fmap_ext_1. eapply Forall_impl; [exact H|].
  intros r Hr. unfold pad. rewrite Hr, Nat.sub_diag. apply app_nil_r.
Qed.

Lemma load_ghcn_meta_rows (f : list string) :
  load_ghcn_meta f
  = (let* rows := for_each load_line f in Pandas.new rows meta_columns).
Proof.
  unfold load_ghcn_meta. rewrite for_loop_append.
  by destruct (for_each load_line f).
Qed.

(** The load either fails with [ValueError] or returns the rows of its
    lines under the fixed header. *)
Lemma load_ghcn_meta_cases (f : list string) :
  (exists rows, for_each load_line f = Ok rows
     /\ load_ghcn_meta f
        = Ok {| index := (fun i => VInt (Z.of_nat i)) <$> seq 0 (length rows);
                columns := meta_columns;
                data := rows |})
  \/ (raises (for_each load_line f) = true
      /\ load_ghcn_meta f = Raise ValueError).
Proof.
  rewrite load_ghcn_meta_rows.
  destruct (for_each load_line f) as [rows|e] eqn:Hrows; simpl.
  - left. exists rows. split; [done|]. apply new_rectangular.
    apply for_each_Forall2 in Hrows.
    induction Hrows as [|line row ? ? Hrow _ IH]; constructor; [|done].
    by apply load_line_length in Hrow.
  - right. split; [done|]. f_equal. revert Hrows. apply for_each_exn.
    intros line e' _. apply load_line_exn.
Qed.

(** One line that fails makes the whole load fail. *)
Lemma load_ghcn_meta_raises (f : list string) (line : string) :
  line ∈ f -> raises (load_line line) = true ->
  load_ghcn_meta f = Raise ValueError.
Proof.
  intros Hin Hline. destruct (load_ghcn_meta_cases f) as [(rows & Hrows & _)|[_ H]];
    [|done].
  pose proof (for_each_raises _ _ _ Hin Hline) as Hr.
  rewrite Hrows in Hr. discriminate.
Qed.

(** One field that fails makes its line fail. *)
Lemma load_line_raises (line typ : string) (start end_ : nat) :
  (typ, (start, end_)) ∈ zip types (zip start_idxs end_idxs) ->
  raises (load_field line typ start end_) = true ->
  raises (load_line line) = true.
Proof.
  intros Hin Hf. rewrite load_line_for_each.
  by apply (for_each_raises _ _ (typ, (start, end_))).
Qed.

(** *** The fallback rule *)

(** C1, as the code has it.  For every line and every field of the station
    schema: when the length of the line is at most the end offset of the
    field, the field is the default of its type (the empty string, NaN, 0);
    when the line is strictly longer than the end offset, the field is the
    conversion of the lowercased slice [start, end) of the line.  The row of
    the line holds that field at the position of the schema. *)
Theorem load_field_fallback_rule
    (line : string) (i : nat) (typ : string) (start end_ : nat) :
  zip types (zip start_idxs end_idxs) !! i = Some (typ, (start, end_)) ->
  ((String.length line <= end_)%nat ->
     typ = "str" /\ load_field line typ start end_ = Ok (VStr "")
     \/ typ = "float" /\ load_field line typ start end_ = Ok (VFloat nan)
     \/ typ = "int" /\ load_field line typ start end_ = Ok (VInt 0))
  /\ ((end_ < String.length line)%nat ->
      let text := lower (slice line start end_) in
      typ = "str" /\ load_field line typ start end_ = Ok (VStr text)
      \/ typ = "float"
         /\ load_field line typ start end_
            = (let* x := float_of_str text in Ok (VFloat x))
      \/ typ = "int"
         /\ load_field line typ start end_
            = (let* n := int text in Ok (VInt n)))
  /\ (forall row, load_line line = Ok row ->
      exists v, row !! i = Some v /\ load_field line typ start end_ = Ok v).
Proof.
  intros Hi. split; [|split].
  - intros Hshort.
    assert ((end_ <? String.length line)%nat = false) as Hlt
      by (apply Nat.ltb_ge; lia).
    destruct (schema_types _ _ _ (list_elem_of_lookup_2 _ _ _ Hi))
      as [->|[->| ->]];
      rewrite ?load_field_str, ?load_field_float, ?load_field_int, Hlt; auto.
  - intros Hlong text.
    assert ((end_ <? String.length line)%nat = true) as Hlt
      by (apply Nat.ltb_lt; lia).
    destruct (schema_types _ _ _ (list_elem_of_lookup_2 _ _ _ Hi))
      as [->|[->| ->]];
      rewrite ?load_field_str, ?load_field_float, ?load_field_int, Hlt; auto.
  - intros row Hrow. rewrite load_line_for_each in Hrow.
    destruct (for_each_lookup _ _ _ _ _ Hrow Hi) as (v & Hv & Hf). eauto.
Qed.

(** The rule at the sample station line, which is 74 characters long: the
    state (38, 40) is converted, the flag (72, 75) is the default. *)
Lemma load_field_fallback_rule_witness :
  load_field station_line "str" 38 40 = Ok (VStr "al")
  /\ load_field station_line "str" 72 75 = Ok (VStr "").
Proof.
  split.
  - destruct (load_field_fallback_rule station_line 4 "str" 38 40 eq_refl)
      as (_ & Hlong & _).
    destruct Hlong as [[_ H]|[[H _]|[H _]]];
      [vm_compute; lia| exact H | discriminate H | discriminate H].
  - destruct (load_field_fallback_rule station_line 6 "str" 72 75 eq_refl)
      as (Hshort & _ & _).
    destruct Hshort as [[_ H]|[[H _]|[H _]]];
      [vm_compute; lia| exact H | discriminate H | discriminate H].
Defined.

(** C1 as written fails where the length of the line equals the end offset.
    The line [USC00011084] is 11 characters long, which is not strictly less
    than the end offset 11 of [id]; still the field is the default, and not
    the conversion [usc00011084] of the slice [0, 11). *)
Lemma load_field_length_equal_end :
  String.length "USC00011084" = 11%nat
  /\ ~ (String.length "USC00011084" < 11)%nat
  /\ zip types (zip start_idxs end_idxs) !! 0%nat = Some ("str", (0, 11))%nat
  /\ trimmer "USC00011084" 0 11 = "usc00011084"
  /\ load_field "USC00011084" "str" 0 11 = Ok (VStr "")
  /\ load_line "USC00011084"
     = Ok [VStr ""; VFloat nan; VFloat nan; VFloat nan; VStr ""; VStr "";
           VStr ""; VStr ""; VInt 0].
Proof.
  repeat split; try reflexivity. simpl. lia.
Qed.

(** *** The table of stations *)

(** C7, as the code has it.  For every input file in which each numeric
    field that a line is long enough to hold converts, [load_ghcn_meta]
    returns a table with exactly the 9 columns id, lat, lon, elev, state,
    name, gsn_flag, hcn_flag, wmo_id in this order, and with exactly one
    record per input line, in the order of the file; the record of a line
    holds its 9 fields, taken at the fixed offsets.  Empty and short lines
    are such lines, whose missing fields are the defaults. *)
Theorem load_ghcn_meta_table (f : list string) :
  (forall line start end_,
     line ∈ f -> (end_ < String.length line)%nat ->
     ((start, end_) ∈ [(12, 20); (21, 30); (31, 37)]%nat ->
      raises (to_float line start end_) = false)
     /\ ((start, end_) = (80, 85)%nat ->
         raises (to_int line start end_) = false)) ->
  exists df,
    load_ghcn_meta f = Ok df
    /\ columns df
       = [VStr "id"; VStr "lat"; VStr "lon"; VStr "elev"; VStr "state";
          VStr "name"; VStr "gsn_flag"; VStr "hcn_flag"; VStr "wmo_id"]
    /\ length (data df) = length f
    /\ forall i line,
         f !! i = Some line ->
         exists row,
           data df !! i = Some row
           /\ length row = 9%nat
           /\ Forall2 (fun '(typ, (start, end_)) v =>
                         load_field line typ start end_ = Ok v)
                [("str", (0, 11)); ("float", (12, 20)); ("float", (21, 30));
                 ("float", (31, 37)); ("str", (38, 40)); ("str", (41, 71));
                 ("str", (72, 75)); ("str", (76, 79)); ("int", (80, 85))]%nat
                row.
Proof.
  intros Hnum.
  assert (forall line, line ∈ f -> raises (load_line line) = false) as Hlines.
  { intros line Hin. rewrite load_line_for_each.
    destruct (for_each_total
                (fun '(typ, (start, end_)) => load_field line typ start end_)
                (zip types (zip start_idxs end_idxs))) as [row ->]; [|done].
    intros (typ & start & end_) Hfield. rewrite meta_schema in Hfield.
    destruct (Nat.ltb_spec end_ (String.length line)) as [Hlt|Hge].
    - pose proof Hlt as Hlt'. apply Nat.ltb_lt in Hlt'.
      repeat (apply elem_of_cons in Hfield as [[= -> -> ->]|Hfield];
        [rewrite ?load_field_str, ?load_field_float, ?load_field_int, Hlt';
         try reflexivity|]).
      + rewrite raises_bind_Ok.
        pose proof (Hnum line 12%nat 20%nat Hin ltac:(lia)) as [H _].
        apply H. rewrite !elem_of_cons. auto.
      + rewrite raises_bind_Ok.
        pose proof (Hnum line 21%nat 30%nat Hin ltac:(lia)) as [H _].
        apply H. rewrite !elem_of_cons. auto.
      + rewrite raises_bind_Ok.
        pose proof (Hnum line 31%nat 37%nat Hin ltac:(lia)) as [H _].
        apply H. rewrite !elem_of_cons. auto.
      + rewrite raises_bind_Ok.
        pose proof (Hnum line 80%nat 85%nat Hin ltac:(lia)) as [_ H].
        by apply H.
      + by apply elem_of_nil in Hfield.
    - apply Nat.ltb_ge in Hge.
      repeat (apply elem_of_cons in Hfield as [[= -> -> ->]|Hfield];
        [rewrite ?load_field_str, ?load_field_float, ?load_field_int, Hge;
         reflexivity|]).
      by apply elem_of_nil in Hfield. }
  destruct (load_ghcn_meta_cases f) as [(rows & Hrows & ->)|[Hr _]].
  - eexists. split; [reflexivity|]. simpl. split; [reflexivity|].
    split; [by apply for_each_length in Hrows|].
    intros i line Hi.
    destruct (for_each_lookup _ _ _ _ _ Hrows Hi) as (row & Hrow & Hline).
    exists row. split; [done|]. split; [by apply load_line_length in Hline|].
    rewrite load_line_for_each, meta_schema in Hline.
    apply for_each_Forall2 in Hline.
    eapply Forall2_impl; [exact Hline|].
    by intros (typ & start & end_) v.
  - destruct (for_each_total load_line f) as [rows Hrows]; [done|].
    rewrite Hrows in Hr. discriminate.
Qed.

(** A file of the sample station line, an empty line, a line cut after the
    station id and a bare line end: four lines, four records. *)
Lemma load_ghcn_meta_table_witness :
  exists df,
    load_ghcn_meta [station_line; ""; "USC00011084"; newline] = Ok df
    /\ columns df
       = [VStr "id"; VStr "lat"; VStr "lon"; VStr "elev"; VStr "state";
          VStr "name"; VStr "gsn_flag"; VStr "hcn_flag"; VStr "wmo_id"]
    /\ length (data df) = 4%nat.
Proof.
  destruct (load_ghcn_meta_table [station_line; ""; "USC00011084"; newline])
    as (df & Hdf & Hcols & Hlen & _).
  - intros line start end_ Hin Hlt.
    repeat (apply elem_of_cons in Hin as [->|Hin]);
      [| | | | by apply elem_of_nil in Hin].
    + split.
      * intros Hf.
        repeat (apply elem_of_cons in Hf as [[= -> ->]|Hf]; [reflexivity|]).
        by apply elem_of_nil in Hf.
      * intros [= -> ->]. vm_compute in Hlt. lia.
    + simpl in Hlt. lia.
    + split.
      * intros Hf.
        repeat (apply elem_of_cons in Hf as [[= -> ->]|Hf];
                  [vm_compute in Hlt; lia|]).
        by apply elem_of_nil in Hf.
      * intros [= -> ->]. vm_compute in Hlt. lia.
    + split.
      * intros Hf.
        repeat (apply elem_of_cons in Hf as [[= -> ->]|Hf];
                  [vm_compute in Hlt; lia|]).
        by apply elem_of_nil in Hf.
      * intros [= -> ->]. vm_compute in Hlt. lia.
  - exists df. auto.
Defined.

(** C7 as written fails on a file with a malformed numeric field: the
    latitude of this 74-character line is the text [3x.9000], which is not
    a number, and the load raises instead of returning a table. *)
Lemma load_ghcn_meta_no_table :
  String.length malformed_station_line = 74%nat
  /\ trimmer malformed_station_line 12 20 = " 3x.9000"
  /\ to_float malformed_station_line 12 20 = Raise ValueError
  /\ load_ghcn_meta [malformed_station_line] = Raise ValueError
  /\ ~ exists df, load_ghcn_meta [malformed_station_line] = Ok df.
Proof.
  repeat split; try reflexivity. intros [df H]. vm_compute in H. discriminate.
Qed.

(** *** Malformed fields *)

(** C8, as the code has it.  For every file with a line that is strictly
    longer than the end offset of a float field (lat, lon, elev) or of the
    integer field (wmo_id), and in which the text of that field does not
    convert, [load_ghcn_meta] raises [ValueError]: the exception is the
    result of the load, and no table is returned. *)
Theorem load_ghcn_meta_malformed_aborts
    (f : list string) (line : string) (start end_ : nat) :
  line ∈ f ->
  (end_ < String.length line)%nat ->
  ((start, end_) ∈ [(12, 20); (21, 30); (31, 37)]%nat
   /\ raises (to_float line start end_) = true)
  \/ ((start, end_) = (80, 85)%nat
      /\ raises (to_int line start end_) = true) ->
  load_ghcn_meta f = Raise ValueError
  /\ forall df, load_ghcn_meta f <> Ok df.
Proof.
  intros Hin Hlt Hbad.
  assert (load_ghcn_meta f = Raise ValueError) as ->; [|by split].
  apply (load_ghcn_meta_raises f line Hin).
  apply Nat.ltb_lt in Hlt.
  destruct Hbad as [[Hf Hr]|[[= -> ->] Hr]].
  - apply (load_line_raises line "float" start end_).
    + rewrite meta_schema.
      repeat (apply elem_of_cons in Hf as [[= -> ->]|Hf];
                [rewrite !elem_of_cons; auto 10|]).
      by apply elem_of_nil in Hf.
    + by rewrite load_field_float, Hlt, raises_bind_Ok.
  - apply (load_line_raises line "int" 80 85).
    + rewrite meta_schema, !elem_of_cons. auto 10.
    + by rewrite load_field_int, Hlt, raises_bind_Ok.
Qed.

(** The malformed latitude, in a file between two well-formed lines. *)
Lemma load_ghcn_meta_malformed_aborts_witness :
  load_ghcn_meta [station_line; malformed_station_line; station_line]
  = Raise ValueError.
Proof.
  apply (load_ghcn_meta_malformed_aborts
           [station_line; malformed_station_line; station_line]
           malformed_station_line 12 20).
  - rewrite !elem_of_cons. auto.
  - vm_compute. lia.
  - left. split; [rewrite !elem_of_cons; auto | reflexivity].
Defined.

(** C8 as written fails where the length of the line equals the end offset
    of the field.  The last line of this file has no line feed and is 85
    characters long: it reaches the end offset 85 of the WMO number, whose
    columns hold [7222x].  That text is not an integer, and still the load
    returns a table of two records, with the default 0 as the WMO number of
    both. *)
Lemma load_ghcn_meta_malformed_at_line_end :
  file_lines (station_line +:+ malformed_wmo_line)
  = [station_line; malformed_wmo_line]
  /\ String.length malformed_wmo_line = 85%nat
  /\ ~ (String.length malformed_wmo_line < 85)%nat
  /\ slice malformed_wmo_line 80 85 = "7222x"
  /\ to_int malformed_wmo_line 80 85 = Raise ValueError
  /\ load_field malformed_wmo_line "int" 80 85 = Ok (VInt 0)
  /\ exists df,
       load_ghcn_meta [station_line; malformed_wmo_line] = Ok df
       /\ length (data df) = 2%nat
       /\ loc_column df (VStr "wmo_id") = Ok [VInt 0; VInt 0].
Proof.
  repeat split; try reflexivity.
  - vm_compute. lia.
  - eexists. split; [vm_compute; reflexivity|]. split; reflexivity.
Qed.

(** C10.  A station line that is long enough to hold the WMO number (longer
    than 85 characters) and whose span [80, 85) is blank makes
    [load_ghcn_meta] raise [ValueError], wherever the line stands in the
    file: blank text is not an integer, and the default 0 is not used. *)
Theorem load_ghcn_meta_blank_wmo_id (before after : list string) (line : string) :
  (85 < String.length line)%nat ->
  slice line 80 85 = "     " ->
  to_int line 80 85 = Raise ValueError
  /\ load_line line = Raise ValueError
  /\ load_ghcn_meta (before ++ line :: after) = Raise ValueError.
Proof.
  intros Hlen Hblank.
  assert (to_int line 80 85 = Raise ValueError) as Hint.
  { unfold to_int, trimmer. by rewrite Hblank. }
  assert (raises (load_line line) = true) as Hline.
  { apply (load_line_raises line "int" 80 85).
    - rewrite meta_schema, !elem_of_cons. auto 10.
    - apply Nat.ltb_lt in Hlen. by rewrite load_field_int, Hlen, Hint. }
  split; [done|]. split.
  - destruct (load_line line) as [row|e] eqn:H; [discriminate|].
    f_equal. by apply load_line_exn in H.
  - apply (load_ghcn_meta_raises _ line); [|done].
    rewrite elem_of_app, elem_of_cons. auto.
Qed.

(** The sample station in a line of full width, 86 characters with the line
    end, after a well-formed line. *)
Lemma load_ghcn_meta_blank_wmo_id_witness :
  String.length blank_wmo_line = 86%nat
  /\ load_ghcn_meta [station_line; blank_wmo_line] = Raise ValueError.
Proof.
  split; [reflexivity|].
  apply (load_ghcn_meta_blank_wmo_id [station_line] [] blank_wmo_line).
  - vm_compute. lia.
  - reflexivity.
Defined.

(** *** String fields *)




(** ** The daily file *)

(** *** Variable names *)

(** C6.  The name of the variable of a line is found by one lookup of the
    lowercased slice [17, 21) in the table of weather types: a code of the
    table is replaced by its name, any other code is returned as it is. *)
Theorem load_varname_lookup (line : string) :
  let code := lower (slice line 17 21) in
  (forall name,
     WEATHER_TYPE_LOOKUP !! code = Some name -> load_varname line = name)
  /\ (WEATHER_TYPE_LOOKUP !! code = None -> load_varname line = code).
Proof.
  intros code. unfold load_varname, trimmer. fold code.
  split.
  - by intros name ->.
  - by intros ->.
Qed.

(** [WT01] is fog, [TMAX] is not in the table, and neither is [WT20]. *)
Lemma load_varname_lookup_witness :
  load_varname daily_wt01_line = "wt_fog"
  /\ load_varname daily_tmax_line = "tmax"
  /\ load_varname "USC00011084202102WT20" = "wt20".
Proof.
  split; [|split].
  - apply (load_varname_lookup daily_wt01_line). reflexivity.
  - apply (load_varname_lookup daily_tmax_line). reflexivity.
  - apply (load_varname_lookup "USC00011084202102WT20"). reflexivity.
Defined.

(** *** Values of the days *)

(** Only one float equals -9999. *)
Lemma float_eq_sentinel (number : float) :
  float_eq number (float_of_Z (-9999)) = true ->
  number = float_of_Z (-9999).
Proof.
  change (float_of_Z (-9999)) with (S754_finite true 5497008383066112 (-39)).
  unfold float_eq, SFeqb, SFcompare.
  destruct number as [s|s| |s m e]; try destruct s; try discriminate.
  destruct (Z.compare_spec e (-39)) as [->| |]; try discriminate.
  destruct (Pos.compare_cont Eq m 5497008383066112) eqn:Hm; try discriminate.
  apply Pos.compare_eq in Hm as ->. reflexivity.
Qed.

(** C3.  A day value that equals -9999 is post-processed to NaN, whatever
    the variable; for a variable of the scaled set too, where the result is
    NaN and not the tenth of the value. *)
Theorem daily_number_postprocess_sentinel (number : float) (varname : string) :
  float_eq number (float_of_Z (-9999)) = true ->
  daily_number_postprocess number varname = nan
  /\ daily_number_postprocess number varname
     <> float_div number (float_of_Z 10).
Proof.
  intros H. unfold daily_number_postprocess. rewrite H. split; [done|].
  apply float_eq_sentinel in H as ->. vm_compute. discriminate.
Qed.

(** The text [-9999] of a precipitation line. *)
Lemma daily_number_postprocess_sentinel_witness :
  float_of_str "-9999" = Ok (float_of_Z (-9999))
  /\ daily_number_postprocess (float_of_Z (-9999)) "prcp" = nan.
Proof.
  split; [reflexivity|].
  apply (daily_number_postprocess_sentinel (float_of_Z (-9999)) "prcp").
  reflexivity.
Defined.

(** C4.  A day value that does not equal -9999 is divided by 10 when the
    name of the variable is in the scaled set, and is returned unchanged
    when it is not. *)
Theorem daily_number_postprocess_scaling (number : float) (varname : string) :
  float_eq number (float_of_Z (-9999)) = false ->
  (varname ∈ scaled_variables ->
   daily_number_postprocess number varname = float_div number (float_of_Z 10))
  /\ (varname ∉ scaled_variables ->
      daily_number_postprocess number varname = number).
Proof.
  intros H. unfold daily_number_postprocess. rewrite H. split; intros Hv.
  - by rewrite bool_decide_eq_true_2.
  - by rewrite bool_decide_eq_false_2.
Qed.

(** The text [00125] of precipitation becomes the float that [12.5]
    denotes, 7036874417766400 * 2^-49; the text [00001] of a weather type
    stays the float 1. *)
Lemma daily_number_postprocess_scaling_witness :
  float_of_str "00125" = Ok (float_of_Z 125)
  /\ daily_number_postprocess (float_of_Z 125) "prcp"
     = S754_finite false 7036874417766400 (-49)
  /\ float_of_str "12.5" = Ok (S754_finite false 7036874417766400 (-49))
  /\ float_of_str "00001" = Ok (float_of_Z 1)
  /\ daily_number_postprocess (float_of_Z 1) "wt_fog" = float_of_Z 1.
Proof.
  split; [reflexivity|]. split; [|split; [reflexivity|split; [reflexivity|]]].
  - destruct (daily_number_postprocess_scaling (float_of_Z 125) "prcp")
      as [Hscaled _]; [reflexivity|].
    rewrite Hscaled; [reflexivity|].
    unfold scaled_variables. rewrite !elem_of_cons. auto.
  - destruct (daily_number_postprocess_scaling (float_of_Z 1) "wt_fog")
      as [_ Hplain]; [reflexivity|].
    apply Hplain. unfold scaled_variables. rewrite !elem_of_cons, elem_of_nil.
    intros H. repeat (destruct H as [H|H]; [discriminate H|]). exact H.
Defined.

(** *** Lines that are too short *)

Lemma to_float_exn (line : string) (start end_ : nat) (e : exn) :
  to_float line start end_ = Raise e -> e = ValueError.
Proof. apply float_of_str_exn. Qed.

(** The days of a line are read without a look at its length: the slice of
    a day that starts at or after the end of the line is empty, and the
    empty text is not a float. *)
Lemma to_float_beyond (line : string) (start end_ : nat) :
  (String.length line <= start)%nat ->
  to_float line start end_ = Raise ValueError.
Proof.
  intros H. unfold to_float, trimmer. by rewrite slice_beyond.
Qed.

(** One day that does not convert makes the days of the line fail. *)
Lemma load_days_raises
    (line varname : string) (year month day1 ndays : Z) (day : nat) :
  monthrange year month = Ok (day1, ndays) ->
  (day < Z.to_nat ndays)%nat ->
  raises (to_float line (start_idx day) (end_idx day)) = true ->
  load_days line varname year month = Raise ValueError.
Proof.
  intros Hm Hday Hf. unfold load_days. rewrite Hm. simpl.
  set (f := fun day =>
              let* number := to_float line (start_idx day) (end_idx day) in
              Ok (daily_number_postprocess number varname)).
  assert (raises (for_each f (seq 0 (Z.to_nat ndays))) = true) as Hr.
  { apply (for_each_raises f _ day).
    - apply elem_of_seq. lia.
    - unfold f. by rewrite raises_bind_Ok. }
  destruct (for_each f _) as [|e] eqn:He; [discriminate|].
  f_equal. revert He. apply for_each_exn.
  intros day' e' _. unfold f. cbv beta.
  destruct (to_float line (start_idx day') (end_idx day')) as [|e''] eqn:H;
    simpl; [discriminate|].
  intros [= ->]. by apply to_float_exn in H.
Qed.

(** A line that fails makes the load of the daily file fail. *)
Lemma load_ghcn_daily_raises (f : list string) (line : string) :
  line ∈ f ->
  (forall data, raises (update_data data line) = true) ->
  raises (load_ghcn_daily f) = true.
Proof.
  intros Hin Hline. unfold load_ghcn_daily.
  pose proof (for_loop_raises update_data f line [daily_columns] Hin Hline) as H.
  by destruct (for_loop update_data f _).
Qed.

(** C2, as the code has it.  The daily loader makes no test on the length
    of a line.  For every line whose year and month are read, and every day
    [d] of that month: when the line is not longer than the start offset
    [21 + (d - 1) * 8] of the field of the day, the conversion of the field
    raises [ValueError], no NaN is substituted, and the load of a file that
    holds the line raises. *)
Theorem load_ghcn_daily_truncated_line
    (before after : list string) (line : string)
    (year month day1 ndays : Z) (d : nat) :
  load_year line = Ok year ->
  load_month line = Ok month ->
  monthrange year month = Ok (day1, ndays) ->
  (1 <= d)%nat -> Z.of_nat d <= ndays ->
  (String.length line <= 21 + (d - 1) * 8)%nat ->
  to_float line (21 + (d - 1) * 8) (21 + (d - 1) * 8 + 5) = Raise ValueError
  /\ load_days line (load_varname line) year month = Raise ValueError
  /\ (forall data, update_data data line = Raise ValueError)
  /\ raises (load_ghcn_daily (before ++ line :: after)) = true.
Proof.
  intros Hy Hm Hrange Hd1 Hdn Hlen.
  assert (to_float line (21 + (d - 1) * 8) (21 + (d - 1) * 8 + 5)
          = Raise ValueError) as Hf by by apply to_float_beyond.
  assert (load_days line (load_varname line) year month = Raise ValueError)
    as Hdays.
  { apply (load_days_raises _ _ _ _ day1 ndays (d - 1)); [done|lia|].
    unfold end_idx, start_idx. by rewrite Hf. }
  assert (forall data, update_data data line = Raise ValueError) as Hup.
  { intros data. unfold update_data. cbv zeta.
    rewrite Hy. simpl. rewrite Hm. simpl. by rewrite Hdays. }
  repeat split; try done.
  apply (load_ghcn_daily_raises _ line).
  - rewrite elem_of_app, elem_of_cons. auto.
  - intros data. by rewrite Hup.
Qed.

(** The precipitation line of February 2021 cut after its first value: 26
    characters, which end before the field of the second day starts. *)
Lemma load_ghcn_daily_truncated_line_witness :
  String.length truncated_daily_line = 26%nat
  /\ to_float truncated_daily_line 29 34 = Raise ValueError
  /\ raises (load_ghcn_daily [daily_prcp_line; truncated_daily_line]) = true.
Proof.
  split; [reflexivity|].
  assert (Z.of_nat 2 <= 28) as Hdn by (simpl; lia).
  assert (String.length truncated_daily_line <= 21 + (2 - 1) * 8)%nat as Hlen
    by (vm_compute; lia).
  destruct (load_ghcn_daily_truncated_line
              [daily_prcp_line] [] truncated_daily_line 2021 2 0 28 2
              eq_refl eq_refl eq_refl (le_S 1 1 (le_n 1)) Hdn Hlen)
    as (Hf & _ & _ & Hload).
  split; [exact Hf | exact Hload].
Defined.

(** C2 as written fails on a line that ends after its header: its 22
    characters are fewer than the end offset 26 of the first day of
    February 2021, and the load raises instead of filling NaN. *)
Lemma load_ghcn_daily_no_fallback :
  (String.length header_only_line < 21 + (1 - 1) * 8 + 5)%nat
  /\ load_year header_only_line = Ok 2021
  /\ load_month header_only_line = Ok 2
  /\ monthrange 2021 2 = Ok (0, 28)
  /\ to_float header_only_line 21 26 = Raise ValueError
  /\ load_ghcn_daily [header_only_line] = Raise ValueError.
Proof.
  repeat split; try reflexivity. vm_compute. lia.
Qed.

(** ** Frames *)

Lemma position_lt (label : value) (labels : list value) (j : nat) :
  position label labels = Some j -> (j < length labels)%nat.
Proof.
  revert j. induction labels as [|l labels IH]; intros j; simpl; [done|].
  destruct (decide (l = label)); [intros [= <-]; lia|].
  destruct (position label labels) as [j'|]; simpl; [|done].
  intros [= <-]. specialize (IH j' eq_refl). lia.
Qed.

Lemma position_app_new (label : value) (labels : list value) :
  position label labels = None ->
  position label (labels ++ [label]) = Some (length labels).
Proof.
  induction labels as [|l labels IH]; simpl.
  - by rewrite decide_True.
  - destruct (decide (l = label)); [done|].
    destruct (position label labels); [done|]. intros _. by rewrite IH.
Qed.

Lemma position_lookup (label : value) (labels : list value) (j : nat) :
  position label labels = Some j -> labels !! j = Some label.
Proof.
  revert j. induction labels as [|l labels IH]; intros j; simpl; [done|].
  destruct (decide (l = label)) as [->|]; [by intros [= <-]|].
  destruct (position label labels) as [j'|]; simpl; [|done].
  intros [= <-]. by apply IH.
Qed.

Lemma length_overwrite (labels : list value) (label v : value) (row : list value) :
  length (overwrite labels label v row) = length row.
Proof. apply length_imap. Qed.

(** In an overwritten row, a cell under the label holds the new value and
    a cell under another label holds what it held. *)
Lemma cell_overwrite_label
    (labels : list value) (label v : value) (row : list value) (j : nat) :
  labels !! j = Some label -> (j < length row)%nat ->
  cell (overwrite labels label v row) j = v.
Proof.
  intros Hj Hlt. unfold cell, overwrite. rewrite nth_lookup, list_lookup_imap.
  destruct (lookup_lt_is_Some_2 row j Hlt) as [c ->]. simpl.
  by rewrite bool_decide_eq_true_2.
Qed.

Lemma cell_overwrite_other
    (labels : list value) (label v : value) (row : list value) (j : nat) :
  labels !! j <> Some label ->
  cell (overwrite labels label v row) j = cell row j.
Proof.
  intros Hj. unfold cell, overwrite. rewrite !nth_lookup, list_lookup_imap.
  destruct (row !! j) as [c|]; simpl; [|done].
  by rewrite bool_decide_eq_false_2.
Qed.

Lemma cell_app_new (row : list value) (v : value) :
  cell (row ++ [v]) (length row) = v.
Proof. unfold cell. by rewrite app_nth2, Nat.sub_diag by lia. Qed.

Lemma index_setitem (df : DataFrame) (label : value) (values : list value) :
  index (setitem df label values) = index df.
Proof. unfold setitem. by destruct (position _ _). Qed.

Lemma length_data_setitem (df : DataFrame) (label : value) (values : list value) :
  length values = length (data df) ->
  length (data (setitem df label values)) = length (data df).
Proof.
  intros H. unfold setitem.
  destruct (position _ _); simpl; rewrite length_zip_with; lia.
Qed.

(** Rows of one width, updated one by one with the values of a column. *)
Lemma zip_with_rows_width
    (g : list value -> value -> list value) (n m : nat)
    (rows : list (list value)) (values : list value) :
  Forall (fun row => length row = n) rows ->
  (forall row v, length row = n -> length (g row v) = m) ->
  Forall (fun row => length row = m) (zip_with g rows values).
Proof.
  intros Hrows Hg. revert values.
  induction Hrows as [|row rows Hrow _ IH]; intros [|v values]; simpl;
    constructor; auto.
Qed.

Lemma zip_with_rows_cell
    (g : list value -> value -> list value) (n j : nat)
    (rows : list (list value)) (values : list value) :
  Forall (fun row => length row = n) rows ->
  length values = length rows ->
  (forall row v, length row = n -> cell (g row v) j = v) ->
  (fun row => cell row j) <$> zip_with g rows values = values.
Proof.
  intros Hrows Hlen Hg. revert values Hlen.
  induction Hrows as [|row rows Hrow _ IH]; intros [|v values] Hlen;
    simpl in *; try lia; [done|].
  f_equal; [by apply Hg | apply IH; lia].
Qed.

Lemma rectangular_setitem (df : DataFrame) (label : value) (values : list value) :
  rectangular df -> length values = length (data df) ->
  rectangular (setitem df label values).
Proof.
  intros [Hi Hrows] Hv. split.
  - by rewrite index_setitem, length_data_setitem.
  - unfold setitem. destruct (position label (columns df)) as [j|]; simpl.
    + apply (zip_with_rows_width _ (length (columns df))); [done|].
      intros row v Hrow. by rewrite length_overwrite.
    + apply (zip_with_rows_width _ (length (columns df))); [done|].
      intros row v Hrow. rewrite !length_app, Hrow. reflexivity.
Qed.

(** A column that was just assigned holds the assigned values. *)
Lemma loc_column_setitem (df : DataFrame) (label : value) (values : list value) :
  rectangular df -> length values = length (data df) ->
  loc_column (setitem df label values) label = Ok values.
Proof.
  intros [_ Hrows] Hv. unfold loc_column, setitem.
  destruct (position label (columns df)) as [j|] eqn:Hj; simpl.
  - rewrite Hj. f_equal. pose proof (position_lt _ _ _ Hj) as Hlt.
    apply position_lookup in Hj.
    apply (zip_with_rows_cell _ (length (columns df))); [done|done|].
    intros row v Hrow. apply cell_overwrite_label; [done|lia].
  - rewrite (position_app_new _ _ Hj). f_equal.
    apply (zip_with_rows_cell _ (length (columns df))); [done|done|].
    intros row v Hrow. rewrite <- Hrow. apply cell_app_new.
Qed.

Lemma rectangular_transpose (df : DataFrame) :
  length (index df) = length (data df) -> rectangular (transpose df).
Proof.
  intros H. split; simpl.
  - by rewrite length_fmap, length_seq.
  - apply Forall_fmap, Forall_forall. intros j _. simpl.
    by rewrite length_fmap.
Qed.

(** ** The calendar *)

(** A month has 28 to 31 days; February has 29 in a leap year and 28
    otherwise. *)
Lemma monthrange_inv (year month day1 ndays : Z) :
  monthrange year month = Ok (day1, ndays) ->
  1 <= month <= 12
  /\ 28 <= ndays <= 31
  /\ (month = 2 -> ndays = if isleap year then 29 else 28).
Proof.
  unfold monthrange.
  destruct ((1 <=? month) && (month <=? 12)) eqn:Hm; simpl; [|discriminate].
  intros [= _ <-]. apply andb_true_iff in Hm as [H1 H12].
  apply Z.leb_le in H1, H12. split; [lia|].
  assert (month = 1 \/ month = 2 \/ month = 3 \/ month = 4 \/ month = 5
          \/ month = 6 \/ month = 7 \/ month = 8 \/ month = 9 \/ month = 10
          \/ month = 11 \/ month = 12) as Hcases by lia.
  repeat (destruct Hcases as [->|Hcases]);
    try subst month; vm_compute (nth _ mdays 0); unfold February;
    simpl (_ =? _); simpl; destruct (isleap year); split; try lia; try done.
Qed.

Lemma monthrange_total (year month : Z) :
  1 <= month <= 12 -> exists day1 ndays, monthrange year month = Ok (day1, ndays).
Proof.
  intros [H1 H12]. unfold monthrange.
  apply Z.leb_le in H1, H12. rewrite H1, H12. simpl. eauto.
Qed.

(** ** From days in columns to days in rows *)

Lemma position_year : position (VStr "year") daily_columns = Some 0%nat.
Proof. reflexivity. Qed.

Lemma position_month : position (VStr "month") daily_columns = Some 1%nat.
Proof. reflexivity. Qed.

Lemma position_varname : position (VStr "varname") daily_columns = Some 2%nat.
Proof. reflexivity. Qed.

(** Once the names are row labels, day [d] is the column at offset [d + 1],
    for every day of a month. *)
Lemma day_positions (ndays : Z) :
  28 <= ndays <= 31 ->
  for_each (fun label => match position label (without 2 daily_columns) with
                         | Some j => Ok j
                         | None => Raise KeyError
                         end)
           (VInt <$> range 1 (ndays + 1))
  = Ok (seq 2 (Z.to_nat ndays)).
Proof.
  intros H.
  assert (ndays = 28 \/ ndays = 29 \/ ndays = 30 \/ ndays = 31)
    as [->|[->|[->| ->]]] by lia; vm_compute; reflexivity.
Qed.

Lemma length_range (lo hi : Z) : length (range lo hi) = Z.to_nat (hi - lo).
Proof. unfold range. by rewrite length_fmap, length_seq. Qed.

Lemma elem_of_range (lo hi d : Z) : d ∈ range lo hi <-> lo <= d < hi.
Proof.
  unfold range. rewrite list_elem_of_fmap. split.
  - intros (i & -> & Hi). apply elem_of_seq in Hi. lia.
  - intros H. exists (Z.to_nat (d - lo)). split; [lia|].
    apply elem_of_seq. lia.
Qed.

(** The reshape of one group: a frame under the wide header whose rows all
    belong to one year and month. *)
Lemma exchange_row_column_group
    (df : DataFrame) (year month day1 ndays : Z) :
  columns df = daily_columns ->
  length (index df) = length (data df) ->
  data df <> [] ->
  Forall (wide_row year month) (data df) ->
  monthrange year month = Ok (day1, ndays) ->
  exists df',
    exchange_row_column df = Ok df'
    /\ index df' = VInt <$> range 1 (ndays + 1)
    /\ loc_column df' (VStr "day") = Ok (VInt <$> range 1 (ndays + 1))
    /\ length (data df') = Z.to_nat ndays.
Proof.
  intros Hcols Hidx Hne Hrows Hmonth.
  destruct (monthrange_inv _ _ _ _ Hmonth) as (_ & Hnd & _).
  destruct df as [idx cols rows]. simpl in *. subst cols.
  destruct rows as [|row0 rows]; [done|].
  pose proof (Forall_inv Hrows) as (Hlen0 & Hyear & Hmon).
  unfold exchange_row_column.
  unfold loc_column at 1 2. cbn [columns data index].
  rewrite position_year, position_month. cbn [fmap list_fmap bind iloc0].
  rewrite Hyear, Hmon. cbn [as_int bind]. rewrite Hmonth. cbn [bind].
  unfold set_index. cbn [columns data index].
  rewrite position_varname. cbn [bind].
  unfold loc_columns. cbn [columns data index].
  rewrite (day_positions ndays Hnd). cbn [bind].
  set (labels := VInt <$> range 1 (ndays + 1)).
  set (selected := {| index := _; columns := labels; data := _ |}).
  assert (rectangular (transpose selected)) as Hrect.
  { apply rectangular_transpose. unfold selected. simpl.
    by rewrite !length_fmap. }
  assert (length (data (transpose selected)) = Z.to_nat ndays) as Hn.
  { unfold transpose, selected, labels. simpl.
    rewrite !length_fmap, length_seq, length_range. lia. }
  set (with_year := setitem_scalar (transpose selected) (VStr "year") _).
  assert (rectangular with_year /\ length (data with_year) = Z.to_nat ndays
          /\ index with_year = labels) as (Hrect1 & Hn1 & Hi1).
  { unfold with_year, setitem_scalar. split; [|split].
    - apply rectangular_setitem; [done|]. by rewrite length_replicate.
    - rewrite length_data_setitem; [done|]. by rewrite length_replicate.
    - by rewrite index_setitem. }
  set (with_month := setitem_scalar with_year (VStr "month") _).
  assert (rectangular with_month /\ length (data with_month) = Z.to_nat ndays
          /\ index with_month = labels) as (Hrect2 & Hn2 & Hi2).
  { unfold with_month, setitem_scalar. split; [|split].
    - apply rectangular_setitem; [done|]. by rewrite length_replicate.
    - rewrite length_data_setitem; [done|]. by rewrite length_replicate.
    - by rewrite index_setitem. }
  assert (length (index with_month) = length (data with_month)) as Hlen
    by apply Hrect2.
  eexists. split; [reflexivity|]. split; [|split].
  - by rewrite index_setitem.
  - rewrite loc_column_setitem; [by rewrite Hi2|done|done].
  - by rewrite length_data_setitem.
Qed.

(** *** Groups *)

Lemma elem_of_insert_key (k k' : Z * Z) (ks : list (Z * Z)) :
  k' ∈ insert_key k ks -> k' = k \/ k' ∈ ks.
Proof.
  induction ks as [|k0 ks IH]; simpl.
  - intros H. apply list_elem_of_singleton in H. auto.
  - destruct (key_ltb k k0).
    + intros H. apply elem_of_cons in H. tauto.
    + destruct (decide (k = k0)); [auto|].
      intros H. apply elem_of_cons in H as [->|H].
      * right. left.
      * destruct (IH H); [auto|]. right. by right.
Qed.

(** The keys of the groups are keys of rows. *)
Lemma elem_of_sorted_keys (k : Z * Z) (ks : list (Z * Z)) :
  k ∈ sorted_keys ks -> k ∈ ks.
Proof.
  induction ks as [|k0 ks IH]; simpl; [done|].
  intros H. apply elem_of_insert_key in H as [->|H]; [left|right; auto].
Qed.

(** The integer keys of the rows of a wide table. *)
Lemma wide_keys (rows : list (list value)) :
  Forall (fun row => exists year month, wide_row year month row) rows ->
  exists keys,
    for_each as_int ((fun row => cell row 0) <$> rows) = Ok keys.*1
    /\ for_each as_int ((fun row => cell row 1) <$> rows) = Ok keys.*2
    /\ Forall2 (fun row k => wide_row k.1 k.2 row) rows keys.
Proof.
  induction 1 as [|row rows (year & month & Hrow) _ (keys & H1 & H2 & Hk)].
  - exists []. by repeat split.
  - exists ((year, month) :: keys). cbn [fmap list_fmap for_each].
    pose proof Hrow as (Hlen & Hy & Hm). rewrite Hy, Hm. cbn [as_int bind].
    rewrite H1, H2. split; [done|]. split; [done|]. by constructor.
Qed.

Lemma zip_fst_snd {A B : Type} (l : list (A * B)) : zip l.*1 l.*2 = l.
Proof. induction l as [|[a b] l IH]; csimpl; [done|]. by rewrite IH. Qed.

(** The rows that a list of flags selects, seen through a relation between
    the rows and the values that the flags were computed from. *)
Lemma select_flagged {A K : Type} (P : A -> K -> Prop) (flag : K -> bool)
    (l : list A) (ks : list K) :
  Forall2 P l ks ->
  Forall (fun a => exists k, P a k /\ flag k = true)
         ((fun p => p.1) <$> filter (fun p => p.2 = true) (zip l (flag <$> ks))).
Proof.
  induction 1 as [|a k l ks Hak _ IH]; simpl; [constructor|].
  rewrite filter_cons. simpl. destruct (decide (flag k = true)) as [Hk|Hk].
  - simpl. constructor; eauto.
  - done.
Qed.

Lemma select_flagged_nonempty {A K : Type} (flag : K -> bool)
    (l : list A) (ks : list K) (k : K) :
  length l = length ks -> k ∈ ks -> flag k = true ->
  (fun p => p.1) <$> filter (fun p => p.2 = true) (zip l (flag <$> ks)) <> [].
Proof.
  revert l. induction ks as [|k0 ks IH]; intros [|a l] Hlen Hin Hk;
    simpl in *; try lia; [by apply elem_of_nil in Hin|].
  rewrite filter_cons. simpl.
  destruct (decide (flag k0 = true)) as [Hk0|Hk0]; [done|].
  apply elem_of_cons in Hin as [->|Hin]; [done|].
  apply IH; [lia|done|done].
Qed.

Lemma select_flagged_length {A B : Type} (l : list A) (l' : list B)
    (flags : list bool) :
  length l = length l' ->
  length (filter (fun p => p.2 = true) (zip l flags))
  = length (filter (fun p => p.2 = true) (zip l' flags)).
Proof.
  revert l l'. induction flags as [|b flags IH]; intros [|a l] [|a' l'] H;
    simpl in *; try lia; try done.
  rewrite !filter_cons. simpl. destruct (decide (b = true)); simpl;
    rewrite (IH l l'); lia.
Qed.

(** The cell of a day, after the names have left the columns and the days
    of the month have been selected. *)
Lemma cell_selected (row : list value) (n j : nat) :
  (2 <= length row)%nat -> (j < n)%nat ->
  cell (cell (without 2 row) <$> seq 2 n) j = cell row (j + 3).
Proof.
  intros Hrow Hj. unfold cell at 1. rewrite nth_lookup, list_lookup_fmap.
  rewrite (proj2 (lookup_seq 2 n j (2 + j)%nat)) by (split; [done|lia]).
  simpl. unfold cell, without. rewrite !nth_lookup. f_equal.
  rewrite lookup_app_r by (rewrite length_take; lia).
  rewrite length_take, lookup_drop. f_equal. lia.
Qed.

(** *** The frame that [exchange_row_column] returns *)

(** The days of a group as rows: row [d] holds, for every row of the group,
    the cell of the day [d + 1]. *)
Lemma exchange_row_column_eq
    (df : DataFrame) (year month day1 ndays : Z) :
  columns df = daily_columns ->
  iloc0 ((fun row => cell row 0) <$> data df) = Ok (VInt year) ->
  iloc0 ((fun row => cell row 1) <$> data df) = Ok (VInt month) ->
  Forall (fun row => (2 <= length row)%nat) (data df) ->
  monthrange year month = Ok (day1, ndays) ->
  let T := {| index := VInt <$> range 1 (ndays + 1);
              columns := (fun row => cell row 2) <$> data df;
              data := (fun d => (fun row => cell row (d + 3)) <$> data df)
                        <$> seq 0 (Z.to_nat ndays) |} in
  let W := setitem_scalar (setitem_scalar T (VStr "year") (VInt year))
             (VStr "month") (VInt month) in
  exchange_row_column df = Ok (setitem W (VStr "day") (index W)).
Proof.
  intros Hcols Hyear Hmon Hrows Hmonth T W.
  destruct (monthrange_inv _ _ _ _ Hmonth) as (_ & Hnd & _).
  destruct df as [idx cols rows]. simpl in *. subst cols.
  unfold exchange_row_column.
  unfold loc_column at 1 2. cbn [columns data index].
  rewrite position_year, position_month. cbn [bind].
  rewrite Hyear, Hmon. cbn [as_int bind]. rewrite Hmonth. cbn [bind].
  unfold set_index. cbn [columns data index].
  rewrite position_varname. cbn [bind].
  unfold loc_columns. cbn [columns data index].
  rewrite (day_positions ndays Hnd). cbn [bind].
  unfold transpose. cbn [columns data index].
  assert ((fun j : nat =>
             (fun row : list value => cell row j)
               <$> ((fun row : list value => cell row <$> seq 2 (Z.to_nat ndays))
                      <$> (without 2 <$> rows)))
            <$> seq 0 (length (VInt <$> range 1 (ndays + 1)))
          = data T) as ->; [|reflexivity].
  unfold T. cbn [data]. rewrite length_fmap, length_range.
  replace (Z.to_nat (ndays + 1 - 1)) with (Z.to_nat ndays) by lia.
  apply Forall_fmap_ext_1, Forall_forall. intros d Hd.
  apply elem_of_seq in Hd. rewrite <- !list_fmap_compose.
  apply Forall_fmap_ext_1. eapply Forall_impl; [exact Hrows|].
  intros row Hlen. simpl in *. by rewrite cell_selected by lia.
Qed.

Lemma columns_setitem_lookup
    (df : DataFrame) (label : value) (values : list value) (j : nat) (c : value) :
  columns df !! j = Some c -> columns (setitem df label values) !! j = Some c.
Proof.
  intros H. unfold setitem. destruct (position _ _); simpl; [done|].
  by apply lookup_app_l_Some.
Qed.

(** An assignment to a column leaves the cells under the other labels as
    they are. *)
Lemma cell_setitem_other
    (df : DataFrame) (label : value) (values : list value)
    (i j : nat) (row : list value) (c : value) :
  length values = length (data df) ->
  data df !! i = Some row ->
  columns df !! j = Some c -> c <> label -> (j < length row)%nat ->
  exists row',
    data (setitem df label values) !! i = Some row'
    /\ cell row' j = cell row j
    /\ (j < length row')%nat.
Proof.
  intros Hlen Hrow Hc Hne Hj.
  destruct (lookup_lt_is_Some_2 values i) as [v Hv].
  { rewrite Hlen. by eapply lookup_lt_Some. }
  unfold setitem. destruct (position _ _); simpl.
  - exists (overwrite (columns df) label v row). split; [|split].
    + apply lookup_zip_with_Some. eauto.
    + apply cell_overwrite_other. rewrite Hc. congruence.
    + by rewrite length_overwrite.
  - exists (row ++ [v]). split; [|split].
    + apply lookup_zip_with_Some. eauto.
    + unfold cell. by rewrite app_nth1.
    + rewrite length_app. lia.
Qed.

(** The three assignments at the end of [exchange_row_column] leave the
    columns of the variables in their places, and the cells of every
    variable that is not called [year], [month] or [day] as they are. *)
Lemma cell_assigned
    (T : DataFrame) (year month : value) (i j : nat) (row : list value) (c : value) :
  length (index T) = length (data T) ->
  data T !! i = Some row ->
  columns T !! j = Some c -> (j < length row)%nat ->
  c ∉ [VStr "year"; VStr "month"; VStr "day"] ->
  let W := setitem_scalar (setitem_scalar T (VStr "year") year)
             (VStr "month") month in
  exists row',
    data (setitem W (VStr "day") (index W)) !! i = Some row'
    /\ columns (setitem W (VStr "day") (index W)) !! j = Some c
    /\ cell row' j = cell row j.
Proof.
  intros Hidx Hrow Hc Hj Hnot W.
  rewrite !not_elem_of_cons in Hnot. destruct Hnot as (Hy & Hm & Hd & _).
  set (W1 := setitem_scalar T (VStr "year") year).
  assert (length (data W1) = length (data T)) as Hlen1.
  { unfold W1, setitem_scalar. apply length_data_setitem.
    by rewrite length_replicate. }
  destruct (cell_setitem_other T (VStr "year")
              (replicate (length (data T)) year) i j row c)
    as (row1 & Hrow1 & Hcell1 & Hj1); try done.
  { by rewrite length_replicate. }
  fold (setitem_scalar T (VStr "year") year) in Hrow1. fold W1 in Hrow1.
  assert (length (data W) = length (data T)) as Hlen2.
  { unfold W, setitem_scalar. fold (setitem_scalar T (VStr "year") year).
    fold W1. rewrite length_data_setitem; [done|]. by rewrite length_replicate. }
  destruct (cell_setitem_other W1 (VStr "month")
              (replicate (length (data W1)) month) i j row1 c)
    as (row2 & Hrow2 & Hcell2 & Hj2); try done.
  { by rewrite length_replicate. }
  { by apply columns_setitem_lookup. }
  fold (setitem_scalar W1 (VStr "month") month) in Hrow2.
  change (setitem_scalar W1 (VStr "month") month) with W in Hrow2.
  destruct (cell_setitem_other W (VStr "day") (index W) i j row2 c)
    as (row3 & Hrow3 & Hcell3 & _); try done.
  { unfold W, setitem_scalar. rewrite !index_setitem.
    fold (setitem_scalar T (VStr "year") year). fold W1.
    fold (setitem_scalar W1 (VStr "month") month).
    change (setitem_scalar W1 (VStr "month") month) with W. congruence. }
  { unfold W, setitem_scalar. by do 2 apply columns_setitem_lookup. }
  exists row3. split; [done|]. split; [|congruence].
  apply columns_setitem_lookup. unfold W, setitem_scalar.
  by do 2 apply columns_setitem_lookup.
Qed.

Lemma cell_fmap {A : Type} (g : A -> value) (l : list A) (j : nat) (a : A) :
  l !! j = Some a -> cell (g <$> l) j = g a.
Proof.
  intros H. unfold cell. by rewrite nth_lookup, list_lookup_fmap, H.
Qed.

Lemma cell_take (k j : nat) (row row2 : list value) :
  take k row2 = take k row -> (j < k)%nat -> cell row2 j = cell row j.
Proof.
  intros H Hj. unfold cell. rewrite !nth_lookup.
  rewrite <- (lookup_take_lt row2 k j), <- (lookup_take_lt row k j) by done.
  by rewrite H.
Qed.

Lemma fmap_Forall2_eq {A B : Type} (R : A -> A -> Prop) (g : A -> B)
    (l l2 : list A) :
  Forall2 R l l2 -> (forall a a2, R a a2 -> g a2 = g a) -> g <$> l2 = g <$> l.
Proof.
  intros H Hg. induction H as [|a a2 l l2 Ha _ IH]; csimpl; [done|].
  by rewrite (Hg a a2 Ha), IH.
Qed.

(** The piece of a group.  Column [j] of the piece carries the name of row
    [j] of the group, and its cell in the row of day [d] is the cell of
    that row under the column [d], unless the name is one of the labels
    [year], [month] and [day] that are assigned last.  Nothing of the group
    beyond the column of the last day of the month goes into the piece. *)
Lemma exchange_row_column_piece
    (df : DataFrame) (year month day1 ndays : Z) :
  columns df = daily_columns ->
  data df <> [] ->
  Forall (wide_row year month) (data df) ->
  monthrange year month = Ok (day1, ndays) ->
  exists df',
    exchange_row_column df = Ok df'
    /\ (forall (d j : nat) (row : list value),
          (1 <= d)%nat -> Z.of_nat d <= ndays ->
          data df !! j = Some row ->
          cell row 2 ∉ [VStr "year"; VStr "month"; VStr "day"] ->
          exists row',
            data df' !! (d - 1)%nat = Some row'
            /\ columns df' !! j = Some (cell row 2)
            /\ cell row' j = cell row (d + 2))
    /\ (forall df2,
          columns df2 = daily_columns ->
          Forall2 (fun row row2 =>
                     take (3 + Z.to_nat ndays) row2
                     = take (3 + Z.to_nat ndays) row) (data df) (data df2) ->
          exchange_row_column df2 = Ok df').
Proof.
  intros Hcols Hne Hrows Hmonth.
  destruct (monthrange_inv _ _ _ _ Hmonth) as (_ & Hnd & _).
  assert (iloc0 ((fun row => cell row 0) <$> data df) = Ok (VInt year)
          /\ iloc0 ((fun row => cell row 1) <$> data df) = Ok (VInt month))
    as [Hyear Hmon].
  { destruct (data df) as [|row0 rows0]; [done|]. simpl.
    by destruct (Forall_inv Hrows) as (_ & -> & ->). }
  assert (Forall (fun row => (2 <= length row)%nat) (data df)) as Hlong.
  { eapply Forall_impl; [exact Hrows|]. intros row (Hlen & _). simpl. lia. }
  rewrite (exchange_row_column_eq df year month day1 ndays) by done.
  eexists. split; [reflexivity|]. split.
  - intros d j row Hd1 Hdn Hj Hname.
    set (T := {| index := VInt <$> range 1 (ndays + 1);
                 columns := (fun row => cell row 2) <$> data df;
                 data := (fun d => (fun row => cell row (d + 3)) <$> data df)
                           <$> seq 0 (Z.to_nat ndays) |}).
    destruct (cell_assigned T (VInt year) (VInt month) (d - 1) j
                ((fun row => cell row (d - 1 + 3)) <$> data df) (cell row 2))
      as (row' & Hrow' & Hcol & Hcell); try done.
    + unfold T. cbn [index data].
      rewrite !length_fmap, length_range, length_seq. lia.
    + unfold T. cbn [data]. rewrite list_lookup_fmap.
      by rewrite (proj2 (lookup_seq 0 (Z.to_nat ndays) (d - 1) (d - 1)%nat))
        by (split; [done|lia]).
    + unfold T. cbn [columns]. by rewrite list_lookup_fmap, Hj.
    + rewrite length_fmap. by eapply lookup_lt_Some.
    + exists row'. split; [done|]. split; [done|].
      rewrite Hcell, (cell_fmap _ _ _ _ Hj).
      by replace (d - 1 + 3)%nat with (d + 2)%nat by lia.
  - intros df2 Hcols2 Hsame.
    assert (forall (k : nat), (k < 3 + Z.to_nat ndays)%nat ->
              (fun row => cell row k) <$> data df2
              = (fun row => cell row k) <$> data df) as Hcells.
    { intros k Hk. apply (fmap_Forall2_eq _ _ _ _ Hsame).
      intros row row2 Htake. by apply (cell_take _ _ _ _ Htake). }
    rewrite (exchange_row_column_eq df2 year month day1 ndays); try done.
    + assert ((fun d : nat => (fun row => cell row (d + 3)) <$> data df2)
                <$> seq 0 (Z.to_nat ndays)
              = (fun d : nat => (fun row => cell row (d + 3)) <$> data df)
                  <$> seq 0 (Z.to_nat ndays)) as Hdata.
      { apply Forall_fmap_ext_1, Forall_forall. intros d Hd.
        apply elem_of_seq in Hd. apply Hcells. lia. }
      cbv zeta. rewrite Hdata, (Hcells 2%nat) by lia. reflexivity.
    + rewrite Hcells by lia. done.
    + rewrite Hcells by lia. done.
    + apply Forall2_flip in Hsame. clear -Hsame Hrows Hnd.
      induction Hsame as [|row2 row rows2 rows Htake _ IH]; constructor.
      * apply Forall_inv in Hrows as (Hlen & _).
        apply (f_equal length) in Htake. rewrite !length_take in Htake. lia.
      * apply IH. by apply Forall_inv_tail in Hrows.
Qed.

(** *** The days of a group *)

(** C5.  For a group of the wide table, whose rows all carry one year and
    one month, [exchange_row_column] returns a frame with exactly one row
    per day of that month: the rows are labelled 1 to the number of days
    that the calendar gives for the year and the month, the column [day]
    holds the same numbers, and no other day is among them.  February has 28
    days in 2021 and 29 in 2020.  The row of day [d] is made of the column
    [d] of the group: under the name of each variable (that is not called
    [year], [month] or [day], the labels assigned last) it holds the cell
    that the row of the variable has under [d].  The columns of the days
    after the last day of the month are not selected: whatever their slots
    hold, the frame is the same. *)
Theorem exchange_row_column_days
    (df : DataFrame) (year month day1 ndays : Z) :
  columns df = daily_columns ->
  length (index df) = length (data df) ->
  data df <> [] ->
  Forall (wide_row year month) (data df) ->
  monthrange year month = Ok (day1, ndays) ->
  exists df',
    exchange_row_column df = Ok df'
    /\ index df' = VInt <$> range 1 (ndays + 1)
    /\ loc_column df' (VStr "day") = Ok (VInt <$> range 1 (ndays + 1))
    /\ length (data df') = Z.to_nat ndays
    /\ (forall d, VInt d ∈ index df' <-> 1 <= d <= ndays)
    /\ 28 <= ndays <= 31
    /\ (year = 2021 -> month = 2 -> ndays = 28)
    /\ (year = 2020 -> month = 2 -> ndays = 29)
    /\ (forall (d j : nat) (row : list value),
          (1 <= d)%nat -> Z.of_nat d <= ndays ->
          data df !! j = Some row ->
          cell row 2 ∉ [VStr "year"; VStr "month"; VStr "day"] ->
          exists row',
            data df' !! (d - 1)%nat = Some row'
            /\ columns df' !! j = Some (cell row 2)
            /\ cell row' j = cell row (d + 2))
    /\ (forall df2,
          columns df2 = daily_columns ->
          Forall2 (fun row row2 =>
                     take (3 + Z.to_nat ndays) row2
                     = take (3 + Z.to_nat ndays) row) (data df) (data df2) ->
          exchange_row_column df2 = Ok df').
Proof.
  intros Hcols Hidx Hne Hrows Hmonth.
  destruct (exchange_row_column_group df year month day1 ndays)
    as (df' & Hdf' & Hi & Hday & Hlen); try done.
  destruct (exchange_row_column_piece df year month day1 ndays)
    as (df'' & Hdf'' & Hcells & Hslots); try done.
  rewrite Hdf' in Hdf''. injection Hdf'' as <-.
  destruct (monthrange_inv _ _ _ _ Hmonth) as (_ & Hnd & Hfeb).
  exists df'. do 4 (split; [done|]).
  split; [|split; [done|split; [|split; [|split; [done|done]]]]].
  - intros d. rewrite Hi, list_elem_of_fmap. split.
    + intros (d' & [= ->] & Hd). apply elem_of_range in Hd. lia.
    + intros Hd. exists d. split; [done|]. apply elem_of_range. lia.
  - intros -> ->. by rewrite Hfeb.
  - intros -> ->. by rewrite Hfeb.
Qed.

(** The two sample groups: 28 rows for February 2021, 29 for February
    2020.  On the 28th of February 2021 the maximum temperature is 15, and
    stray values in the slots of the days 29 to 31 change nothing. *)
Lemma exchange_row_column_days_witness :
  (exists df', exchange_row_column february_2021_group = Ok df'
               /\ index df' = VInt <$> range 1 29
               /\ columns df' !! 1%nat = Some (VStr "tmax")
               /\ (exists row', data df' !! 27%nat = Some row'
                                /\ cell row' 1 = VFloat (float_of_Z 15))
               /\ exchange_row_column february_2021_group_stray = Ok df')
  /\ (exists df', exchange_row_column february_2020_group = Ok df'
                  /\ index df' = VInt <$> range 1 30).
Proof.
  split.
  - destruct (exchange_row_column_days february_2021_group 2021 2 0 28)
      as (df' & Hdf' & Hi & _ & _ & _ & _ & _ & _ & Hcells & Hslots);
      try reflexivity.
    + discriminate.
    + repeat constructor.
    + exists df'. split; [exact Hdf'|]. split; [exact Hi|].
      destruct (Hcells 28%nat 1%nat
                  (pad 34 ([VInt 2021; VInt 2; VStr "tmax"]
                           ++ replicate 28 (VFloat (float_of_Z 15)))))
        as (row' & Hrow' & Hcol & Hcell); [lia|simpl; lia|reflexivity| |].
      * intros H. vm_compute in H.
        repeat (apply elem_of_cons in H as [H|H]; [discriminate H|]).
        by apply elem_of_nil in H.
      * split; [exact Hcol|]. split; [exists row'; split; [exact Hrow' | exact Hcell]|].
        apply Hslots; [reflexivity|]. repeat constructor.
  - destruct (exchange_row_column_days february_2020_group 2020 2 5 29)
      as (df' & Hdf' & Hi & _); try reflexivity.
    + discriminate.
    + repeat constructor.
    + exists df'. split; [exact Hdf' | exact Hi].
Defined.

(** * Further properties *)

(** ** Slices of a line *)

Lemma length_substring_clipped (n m : nat) (s : string) :
  String.length (substring n m s) = Nat.min m (String.length s - n).
Proof.
  revert n m. induction s as [|c s IH]; intros n m; simpl.
  - destruct n, m; simpl; lia.
  - destruct n as [|n]; simpl.
    + destruct m as [|m]; simpl; [reflexivity|]. rewrite (IH 0%nat). lia.
    + apply IH.
Qed.

(** [trimmer] never fails: a field that the line holds only in part is cut
    at the end of the line, and a field that starts after the end of the
    line is empty. *)
Lemma length_trimmer (line : string) (start_idx end_idx : nat) :
  String.length (trimmer line start_idx end_idx)
  = (Nat.min end_idx (String.length line) - start_idx)%nat.
Proof.
  unfold trimmer, slice. rewrite length_lower, length_substring_clipped. lia.
Qed.

Lemma substring_empty (n : nat) (s : string) : substring n 0 s = "".
Proof. revert n. induction s as [|c s IH]; intros [|n]; simpl; auto. Qed.

Lemma substring_append_skip (p s : string) (a m : nat) :
  substring (String.length p + a) m (p +:+ s) = substring a m s.
Proof. induction p as [|c p IH]; simpl; auto. Qed.

Lemma substring_append_prefix (p s : string) (a m : nat) :
  (a + m <= String.length p)%nat ->
  substring a m (p +:+ s) = substring a m p.
Proof.
  revert a m. induction p as [|c p IH]; intros a m H; simpl in *.
  - assert (a = 0%nat /\ m = 0%nat) as [-> ->] by lia. by destruct s.
  - destruct a as [|a].
    + destruct m as [|m]; [reflexivity|]. f_equal. apply (IH 0%nat). lia.
    + apply IH. lia.
Qed.

(** A field that starts after a prefix of the line does not depend on the
    prefix, and a field that ends inside a prefix does not depend on what
    follows. *)
Lemma trimmer_skip (p s : string) (a b : nat) :
  (String.length p <= a)%nat ->
  trimmer (p +:+ s) a b
  = trimmer s (a - String.length p) (b - String.length p).
Proof.
  intros H. unfold trimmer, slice. f_equal.
  replace a with (String.length p + (a - String.length p))%nat at 1 by lia.
  rewrite substring_append_skip. f_equal. lia.
Qed.

Lemma trimmer_prefix (p s : string) (a b : nat) :
  (b <= String.length p)%nat ->
  trimmer (p +:+ s) a b = trimmer p a b.
Proof.
  intros H. unfold trimmer, slice. f_equal.
  destruct (Nat.le_gt_cases a b).
  - apply substring_append_prefix. lia.
  - replace (b - a)%nat with 0%nat by lia. by rewrite !substring_empty.
Qed.

Lemma for_each_ext {A B : Type} (f g : A -> result B) (l : list A) :
  (forall a, a ∈ l -> f a = g a) -> for_each f l = for_each g l.
Proof.
  induction l as [|a l IH]; intros H; simpl; [done|].
  rewrite (H a) by left. rewrite IH; [done|].
  intros a' Ha'. apply H. by right.
Qed.

Lemma for_loop_Forall2 {S A : Type} (R : A -> A -> Prop)
    (body : S -> A -> result S) (l1 l2 : list A) (s : S) :
  Forall2 R l1 l2 ->
  (forall s' a1 a2, R a1 a2 -> body s' a1 = body s' a2) ->
  for_loop body l1 s = for_loop body l2 s.
Proof.
  intros Hl Hbody. revert s.
  induction Hl as [|a1 a2 l1 l2 Ha _ IH]; intros s; simpl; [done|].
  rewrite (Hbody s a1 a2 Ha). destruct (body s a2); simpl; auto.
Qed.

(** ** What the daily loader does not read *)

(** The row of a line is a function of its year, its month, its variable
    and its days. *)
Lemma update_data_ext (data : list (list value)) (line1 line2 : string) :
  load_varname line1 = load_varname line2 ->
  load_year line1 = load_year line2 ->
  load_month line1 = load_month line2 ->
  (forall varname year month,
     load_year line2 = Ok year -> load_month line2 = Ok month ->
     load_days line1 varname year month = load_days line2 varname year month) ->
  update_data data line1 = update_data data line2.
Proof.
  intros Hv Hy Hm Hd. unfold update_data. rewrite Hv, Hy, Hm.
  destruct (load_year line2) as [year|]; simpl; [|done].
  destruct (load_month line2) as [month|]; simpl; [|done].
  by rewrite Hd.
Qed.

(** The station id, the first 11 characters of a line, is never read: two
    daily files whose lines differ in these characters only are loaded to
    the same result. *)
Theorem load_ghcn_daily_ignores_station (f1 f2 : list string) :
  Forall2 (fun line1 line2 =>
             exists id1 id2 rest,
               line1 = id1 +:+ rest /\ line2 = id2 +:+ rest
               /\ String.length id1 = 11%nat /\ String.length id2 = 11%nat)
          f1 f2 ->
  load_ghcn_daily f1 = load_ghcn_daily f2.
Proof.
  intros H. unfold load_ghcn_daily.
  rewrite (for_loop_Forall2 _ update_data f1 f2 _ H); [done|].
  clear. intros data line1 line2 (id1 & id2 & rest & -> & -> & H1 & H2).
  apply update_data_ext.
  - unfold load_varname. rewrite !trimmer_skip, H1, H2 by lia. done.
  - unfold load_year, to_int. rewrite !trimmer_skip, H1, H2 by lia. done.
  - unfold load_month, to_int. rewrite !trimmer_skip, H1, H2 by lia. done.
  - intros varname year month _ _. unfold load_days.
    destruct (monthrange year month) as [[day1 ndays]|]; simpl; [|done].
    apply for_each_ext. intros day _. unfold to_float, end_idx, start_idx.
    rewrite !trimmer_skip, H1, H2 by lia. done.
Qed.

(** The January line under the id of another station. *)
Lemma load_ghcn_daily_ignores_station_witness :
  load_ghcn_daily [daily_january_line]
  = load_ghcn_daily ["CA001012055" +:+ substring 11 259 daily_january_line].
Proof.
  apply load_ghcn_daily_ignores_station. constructor; [|constructor].
  exists "USC00011084", "CA001012055", (substring 11 259 daily_january_line).
  repeat split; reflexivity.
Defined.

(** The slots after the last day of the month are never read: a line can
    be cut, or changed, after the value of the last day of its month
    without a change of its row. *)
Theorem update_data_ignores_unused_slots
    (data : list (list value)) (prefix rest : string)
    (year month day1 ndays : Z) :
  load_year prefix = Ok year ->
  load_month prefix = Ok month ->
  monthrange year month = Ok (day1, ndays) ->
  (18 + 8 * Z.to_nat ndays <= String.length prefix)%nat ->
  update_data data (prefix +:+ rest) = update_data data prefix.
Proof.
  intros Hy Hm Hrange Hlen.
  destruct (monthrange_inv _ _ _ _ Hrange) as (_ & Hnd & _).
  assert (load_year (prefix +:+ rest) = load_year prefix) as Hy'.
  { unfold load_year, to_int. by rewrite trimmer_prefix by lia. }
  assert (load_month (prefix +:+ rest) = load_month prefix) as Hm'.
  { unfold load_month, to_int. by rewrite trimmer_prefix by lia. }
  apply update_data_ext; try done.
  - unfold load_varname. by rewrite trimmer_prefix by lia.
  - intros varname y m Hy2 Hm2. rewrite Hy in Hy2. rewrite Hm in Hm2.
    injection Hy2 as <-. injection Hm2 as <-.
    unfold load_days. rewrite Hrange. simpl.
    apply for_each_ext. intros day Hday. apply elem_of_seq in Hday.
    unfold to_float, end_idx, start_idx. by rewrite trimmer_prefix by lia.
Qed.

(** The precipitation line of February 2021, whole and cut after the value
    of the 28th. *)
Lemma update_data_ignores_unused_slots_witness :
  String.length (substring 0 242 daily_prcp_line) = 242%nat
  /\ update_data [] daily_prcp_line
     = update_data [] (substring 0 242 daily_prcp_line).
Proof.
  split; [reflexivity|].
  change daily_prcp_line
    with (substring 0 242 daily_prcp_line +:+ substring 242 28 daily_prcp_line)
    at 1.
  apply (update_data_ignores_unused_slots
           [] (substring 0 242 daily_prcp_line)
           (substring 242 28 daily_prcp_line) 2021 2 0 28);
    reflexivity.
Defined.

(** ** The wide table *)

Lemma update_data_row (data : list (list value)) (line : string) :
  update_data data line = (let* row := daily_row_of line in Ok (data ++ [row])).
Proof.
  unfold update_data, daily_row_of.
  destruct (load_year line) as [year|]; simpl; [|done].
  destruct (load_month line) as [month|]; simpl; [|done].
  by destruct (load_days line _ year month).
Qed.

Lemma for_loop_update_data (f : list string) (data : list (list value)) :
  for_loop update_data f data
  = (let* rows := for_each daily_row_of f in Ok (data ++ rows)).
Proof.
  rewrite <- for_loop_append. apply for_loop_ext.
  intros data' line. apply update_data_row.
Qed.

Lemma load_ghcn_daily_rows (f : list string) :
  load_ghcn_daily f
  = (let* rows := for_each daily_row_of f in Pandas.new rows daily_columns).
Proof.
  unfold load_ghcn_daily. rewrite for_loop_update_data.
  by destruct (for_each daily_row_of f).
Qed.

Lemma load_days_length
    (line varname : string) (year month day1 ndays : Z) (days : list float) :
  monthrange year month = Ok (day1, ndays) ->
  load_days line varname year month = Ok days ->
  length days = Z.to_nat ndays.
Proof.
  intros Hrange. unfold load_days. rewrite Hrange. simpl. intros H.
  apply for_each_length in H. by rewrite length_seq in H.
Qed.

(** What a row is made of. *)
Lemma daily_row_of_Ok (line : string) (row : list value) :
  daily_row_of line = Ok row ->
  exists year month day1 ndays days,
    load_year line = Ok year
    /\ load_month line = Ok month
    /\ monthrange year month = Ok (day1, ndays)
    /\ load_days line (load_varname line) year month = Ok days
    /\ length days = Z.to_nat ndays
    /\ row = [VInt year; VInt month; VStr (load_varname line)]
             ++ (VFloat <$> days).
Proof.
  unfold daily_row_of.
  destruct (load_year line) as [year|]; simpl; [|done].
  destruct (load_month line) as [month|]; simpl; [|done].
  destruct (load_days line _ year month) as [days|] eqn:Hdays; simpl; [|done].
  intros [= <-].
  destruct (monthrange year month) as [[day1 ndays]|] eqn:Hrange.
  - exists year, month, day1, ndays, days. repeat split; try done.
    by apply (load_days_length _ _ _ _ _ _ _ Hrange Hdays).
  - unfold load_days in Hdays. by rewrite Hrange in Hdays.
Qed.

Lemma max_list_le (n : nat) (l : list nat) :
  Forall (fun k => (k <= n)%nat) l -> (max_list l <= n)%nat.
Proof. induction 1; simpl; lia. Qed.

Lemma max_list_lt (n : nat) (l : list nat) :
  l <> [] -> Forall (fun k => (k < n)%nat) l -> (max_list l < n)%nat.
Proof.
  intros Hne H. destruct H as [|k l Hk Hl]; [done|]. simpl.
  clear Hne. induction Hl as [|k' l Hk' _ IH]; simpl in *; lia.
Qed.

Lemma pad_short (width : nat) (row : list value) :
  (length row <= width)%nat ->
  pad width row = row ++ replicate (width - length row) missing
  /\ length (pad width row) = width.
Proof.
  intros H. unfold pad. split; [done|].
  rewrite length_app, length_replicate. lia.
Qed.

(** A load that returns has read every line, and has filled every row up
    to the 34 columns of the header. *)
Lemma load_ghcn_daily_Ok (f : list string) (df : DataFrame) :
  load_ghcn_daily f = Ok df ->
  exists rows,
    for_each daily_row_of f = Ok rows
    /\ df = {| index := (fun i => VInt (Z.of_nat i)) <$> seq 0 (length f);
               columns := daily_columns;
               data := pad 34 <$> rows |}.
Proof.
  rewrite load_ghcn_daily_rows.
  destruct (for_each daily_row_of f) as [rows|] eqn:Hrows; simpl; [|done].
  pose proof (for_each_length _ _ _ Hrows) as Hlen.
  intros Hnew. exists rows. split; [done|].
  unfold Pandas.new in Hnew. destruct rows as [|row rows].
  - injection Hnew as <-. destruct f; [done|discriminate Hlen].
  - destruct (decide _) as [Hwidth|]; [|done].
    change (length daily_columns) with 34%nat in Hwidth.
    rewrite Hwidth, Hlen in Hnew. by injection Hnew as <-.
Qed.

(** A row that was read and filled up. *)
Lemma daily_row_padded (line : string) (row : list value) :
  daily_row_of line = Ok row ->
  exists year month day1 ndays days,
    load_year line = Ok year
    /\ load_month line = Ok month
    /\ monthrange year month = Ok (day1, ndays)
    /\ load_days line (load_varname line) year month = Ok days
    /\ length (pad 34 row) = 34%nat
    /\ pad 34 row
       = [VInt year; VInt month; VStr (load_varname line)]
         ++ (VFloat <$> days)
         ++ replicate (Z.to_nat (31 - ndays)) (VFloat nan).
Proof.
  intros Hrow.
  apply daily_row_of_Ok in Hrow
    as (year & month & day1 & ndays & days & Hy & Hm & Hr & Hd & Hn & ->).
  destruct (monthrange_inv _ _ _ _ Hr) as (_ & Hnd & _).
  exists year, month, day1, ndays, days. do 4 (split; [done|]).
  destruct (pad_short 34 ([VInt year; VInt month; VStr (load_varname line)]
                           ++ (VFloat <$> days))) as [Hpad Hwidth].
  { rewrite length_app, length_fmap. simpl. lia. }
  split; [done|]. rewrite Hpad, <- app_assoc. do 2 f_equal.
  rewrite length_app, length_fmap. simpl. f_equal. lia.
Qed.

(** The table that [load_ghcn_daily] returns has the 34 columns year,
    month, varname, 1 to 31, and one row per line of the file, in the order
    of the file: the year, the month and the variable of the line, the
    values of the days of that month, and NaN in the slots of the days that
    the month does not have. *)
Theorem load_ghcn_daily_table (f : list string) (df : DataFrame) :
  load_ghcn_daily f = Ok df ->
  columns df = [VStr "year"; VStr "month"; VStr "varname"]
               ++ (VInt <$> range 1 32)
  /\ length (columns df) = 34%nat
  /\ index df = (fun i => VInt (Z.of_nat i)) <$> seq 0 (length f)
  /\ Forall2 (fun line row =>
                exists year month day1 ndays days,
                  load_year line = Ok year
                  /\ load_month line = Ok month
                  /\ monthrange year month = Ok (day1, ndays)
                  /\ load_days line (load_varname line) year month = Ok days
                  /\ length row = 34%nat
                  /\ row = [VInt year; VInt month; VStr (load_varname line)]
                           ++ (VFloat <$> days)
                           ++ replicate (Z.to_nat (31 - ndays)) (VFloat nan))
             f (data df).
Proof.
  intros Hload. apply load_ghcn_daily_Ok in Hload as (rows & Hrows & ->).
  cbn [columns index data]. repeat split.
  apply Forall2_fmap_r. apply for_each_Forall2 in Hrows.
  eapply Forall2_impl; [exact Hrows|].
  intros line row Hrow. by apply daily_row_padded in Hrow.
Qed.

(** A file of January and of February 2021. *)
Lemma load_ghcn_daily_table_witness :
  exists df,
    load_ghcn_daily [daily_january_line; daily_prcp_line] = Ok df
    /\ length (columns df) = 34%nat
    /\ index df = [VInt 0; VInt 1].
Proof.
  destruct (load_ghcn_daily [daily_january_line; daily_prcp_line])
    as [df|e] eqn:Hload.
  - destruct (load_ghcn_daily_table _ df Hload) as (_ & Hcols & Hidx & _).
    exists df. split; [reflexivity|]. split; [exact Hcols | exact Hidx].
  - vm_compute in Hload. discriminate Hload.
Defined.

(** ** Errors of the daily loader *)

Lemma monthrange_illegal (year month : Z) :
  month < 1 \/ 12 < month -> monthrange year month = Raise IllegalMonthError.
Proof.
  intros H. unfold monthrange.
  destruct ((1 <=? month) && (month <=? 12)) eqn:Hm; [|done].
  apply andb_true_iff in Hm as [H1 H12]. apply Z.leb_le in H1, H12. lia.
Qed.

(** A line whose month is not one of 1 to 12 is not a row: the calendar
    refuses the month, [update_data] raises [IllegalMonthError] before any
    day is read, and the load of a file that holds the line raises. *)
Theorem load_ghcn_daily_illegal_month
    (before after : list string) (line : string) (year month : Z) :
  load_year line = Ok year ->
  load_month line = Ok month ->
  month < 1 \/ 12 < month ->
  (forall data, update_data data line = Raise IllegalMonthError)
  /\ load_ghcn_daily (line :: after) = Raise IllegalMonthError
  /\ raises (load_ghcn_daily (before ++ line :: after)) = true.
Proof.
  intros Hy Hm Hmonth.
  assert (forall data, update_data data line = Raise IllegalMonthError) as Hup.
  { intros data. unfold update_data, load_days. cbv zeta.
    rewrite Hy. simpl. rewrite Hm. simpl.
    by rewrite (monthrange_illegal year month Hmonth). }
  split; [done|]. split.
  - unfold load_ghcn_daily. simpl. by rewrite Hup.
  - apply (load_ghcn_daily_raises _ line).
    + rewrite elem_of_app, elem_of_cons. auto.
    + intros data. by rewrite Hup.
Qed.

(** A line of month 13 after a line of January. *)
Lemma load_ghcn_daily_illegal_month_witness :
  load_month month_13_line = Ok 13
  /\ load_ghcn_daily [month_13_line] = Raise IllegalMonthError
  /\ raises (load_ghcn_daily [daily_january_line; month_13_line]) = true.
Proof.
  split; [reflexivity|].
  destruct (load_ghcn_daily_illegal_month
              [daily_january_line] [] month_13_line 2021 13 eq_refl eq_refl)
    as (_ & Hfirst & Hlater); [lia|].
  split; [exact Hfirst | exact Hlater].
Defined.

(** The header has a column for each of 31 days, and a table needs a row
    that fills them all.  A file that is not empty and whose lines all
    belong to months of fewer than 31 days is read line by line without an
    error, and then the construction of the table raises [ValueError]. *)
Theorem load_ghcn_daily_short_months (f : list string) :
  f <> [] ->
  Forall (fun line =>
            exists year month day1 ndays,
              load_year line = Ok year
              /\ load_month line = Ok month
              /\ monthrange year month = Ok (day1, ndays)
              /\ ndays < 31
              /\ raises (load_days line (load_varname line) year month)
                 = false) f ->
  raises (for_loop update_data f [daily_columns]) = false
  /\ load_ghcn_daily f = Raise ValueError.
Proof.
  intros Hne Hlines.
  assert (exists rows,
            for_each daily_row_of f = Ok rows
            /\ Forall (fun row => (length row < 34)%nat) rows)
    as (rows & Hrows & Hshort).
  { clear Hne.
    induction Hlines
      as [|line f (year & month & day1 & ndays & Hy & Hm & Hr & Hn & Hd) _
            (rows & Hrows & Hshort)].
    - exists []. by split.
    - destruct (load_days line (load_varname line) year month)
        as [days|] eqn:Hdays; [|discriminate Hd].
      pose proof (load_days_length _ _ _ _ _ _ _ Hr Hdays) as Hlen.
      eexists. split.
      + simpl. unfold daily_row_of at 1. rewrite Hy. simpl. rewrite Hm. simpl.
        rewrite Hdays. simpl. rewrite Hrows. simpl. reflexivity.
      + constructor; [|done]. simpl. rewrite length_fmap. lia. }
  split.
  - by rewrite for_loop_update_data, Hrows.
  - rewrite load_ghcn_daily_rows, Hrows. simpl.
    pose proof (for_each_length _ _ _ Hrows) as Hlen.
    unfold Pandas.new. destruct rows as [|row rows].
    + destruct f; [done|discriminate Hlen].
    + destruct (decide _) as [Hwidth|]; [|done].
      change (length daily_columns) with 34%nat in Hwidth.
      assert (max_list (length <$> row :: rows) < 34)%nat; [|lia].
      apply max_list_lt; [done|]. by apply Forall_fmap.
Qed.

(** The two lines of February 2021: each is read, and there is no table. *)
Lemma load_ghcn_daily_short_months_witness :
  load_ghcn_daily [daily_prcp_line; daily_tmax_line] = Raise ValueError.
Proof.
  apply load_ghcn_daily_short_months; [discriminate|].
  repeat constructor.
  - exists 2021, 2, 0, 28. repeat split; try reflexivity.
  - exists 2021, 2, 0, 28. repeat split; try reflexivity.
Defined.

(** ** Decoded names *)

(** The names of the table are all different, and all longer than a code. *)
Lemma weather_names (code1 code2 name1 name2 : string) :
  WEATHER_TYPE_LOOKUP !! code1 = Some name1 ->
  WEATHER_TYPE_LOOKUP !! code2 = Some name2 ->
  (4 < String.length name1)%nat /\ (name1 = name2 -> code1 = code2).
Proof.
  intros H1 H2. apply elem_of_map_to_list in H1, H2.
  assert (Forall (fun p => (4 < String.length p.2)%nat
                           /\ Forall (fun q => p.2 = q.2 -> p.1 = q.1)
                                (map_to_list WEATHER_TYPE_LOOKUP))
            (map_to_list WEATHER_TYPE_LOOKUP)) as Hall.
  { eapply (bool_decide_unpack _). vm_compute. exact I. }
  rewrite Forall_forall in Hall. destruct (Hall _ H1) as [Hlong Hinj].
  split; [exact Hlong|]. rewrite Forall_forall in Hinj. apply (Hinj _ H2).
Qed.

(** Decoding loses nothing: two lines with the same variable name have the
    same code in the columns 17 to 20, up to the case of the letters. *)
Theorem load_varname_injective (line1 line2 : string) :
  load_varname line1 = load_varname line2 ->
  trimmer line1 17 21 = trimmer line2 17 21.
Proof.
  unfold load_varname.
  pose proof (length_trimmer line1 17 21) as Hlen1.
  pose proof (length_trimmer line2 17 21) as Hlen2.
  destruct (WEATHER_TYPE_LOOKUP !! trimmer line1 17 21) as [name1|] eqn:H1;
    destruct (WEATHER_TYPE_LOOKUP !! trimmer line2 17 21) as [name2|] eqn:H2.
  - apply (weather_names _ _ _ _ H1 H2).
  - intros ->. destruct (weather_names _ _ _ _ H1 H1) as [Hlong _]. lia.
  - intros <-. destruct (weather_names _ _ _ _ H2 H2) as [Hlong _]. lia.
  - done.
Qed.

(** The fog of February 2020 and a line of another station and month that
    spells the code in small letters. *)
Lemma load_varname_injective_witness :
  trimmer daily_wt01_line 17 21 = trimmer "CA001012055199907wt0100001" 17 21.
Proof.
  apply load_varname_injective. reflexivity.
Defined.

(** ** More on the station file *)

Lemma for_each_app {A B : Type} (f : A -> result B) (l1 l2 : list A) :
  for_each f (l1 ++ l2)
  = (let* bs1 := for_each f l1 in
     let* bs2 := for_each f l2 in Ok (bs1 ++ bs2)).
Proof.
  induction l1 as [|a l1 IH]; simpl.
  - by destruct (for_each f l2).
  - destruct (f a) as [b|e]; simpl; [|reflexivity].
    rewrite IH. destruct (for_each f l1); simpl; [|reflexivity].
    by destruct (for_each f l2).
Qed.

(** The records of two lists of lines, one after the other. *)
Lemma load_ghcn_meta_lines_app (f1 f2 : list string) (df1 df2 : DataFrame) :
  load_ghcn_meta f1 = Ok df1 ->
  load_ghcn_meta f2 = Ok df2 ->
  exists df,
    load_ghcn_meta (f1 ++ f2) = Ok df
    /\ columns df = columns df1
    /\ data df = data df1 ++ data df2
    /\ index df
       = (fun i => VInt (Z.of_nat i)) <$> seq 0 (length f1 + length f2).
Proof.
  intros H1 H2.
  destruct (load_ghcn_meta_cases f1) as [(rows1 & Hrows1 & E1)|[_ E1]];
    rewrite E1 in H1; [|discriminate]. injection H1 as <-.
  destruct (load_ghcn_meta_cases f2) as [(rows2 & Hrows2 & E2)|[_ E2]];
    rewrite E2 in H2; [|discriminate]. injection H2 as <-.
  destruct (load_ghcn_meta_cases (f1 ++ f2)) as [(rows & Hrows & E)|[Hr _]].
  - rewrite for_each_app, Hrows1, Hrows2 in Hrows. simpl in Hrows.
    injection Hrows as <-. eexists. split; [exact E|]. simpl.
    split; [done|]. split; [done|].
    apply for_each_length in Hrows1, Hrows2.
    by rewrite length_app, Hrows1, Hrows2.
  - rewrite for_each_app, Hrows1, Hrows2 in Hr. discriminate.
Qed.

Lemma file_lines_nil (text : string) : file_lines text = [] -> text = "".
Proof.
  destruct text as [|c text]; simpl; [done|].
  destruct (_ =? _)%N; [done|]. by destruct (file_lines text).
Qed.

(** A text that ends with a line feed has its own lines, whatever
    follows. *)
Lemma file_lines_app (body text : string) :
  file_lines ((body +:+ newline) +:+ text)
  = file_lines (body +:+ newline) ++ file_lines text.
Proof.
  induction body as [|c body IH]; [reflexivity|].
  change (file_lines ((String c body +:+ newline) +:+ text))
    with (if (code c =? 10)%N
          then String c "" :: file_lines ((body +:+ newline) +:+ text)
          else match file_lines ((body +:+ newline) +:+ text) with
               | [] => [String c ""]
               | line :: lines => String c line :: lines
               end).
  change (file_lines (String c body +:+ newline))
    with (if (code c =? 10)%N
          then String c "" :: file_lines (body +:+ newline)
          else match file_lines (body +:+ newline) with
               | [] => [String c ""]
               | line :: lines => String c line :: lines
               end).
  rewrite IH. destruct (_ =? _)%N; [reflexivity|].
  destruct (file_lines (body +:+ newline)) as [|line lines] eqn:Hlines;
    [|reflexivity].
  apply file_lines_nil in Hlines. by destruct body.
Qed.

(** Loading is done line by line, and a line ends with its line feed.  When
    the text of a file is a text that is empty or ends with a line feed,
    followed by a second text, the table of the file has the records of the
    first text followed by the records of the second, under the same
    columns. *)
Theorem load_ghcn_meta_app (text1 text2 : string) (df1 df2 : DataFrame) :
  text1 = "" \/ (exists body, text1 = body +:+ newline) ->
  load_ghcn_meta (file_lines text1) = Ok df1 ->
  load_ghcn_meta (file_lines text2) = Ok df2 ->
  exists df,
    load_ghcn_meta (file_lines (text1 +:+ text2)) = Ok df
    /\ columns df = columns df1
    /\ data df = data df1 ++ data df2
    /\ index df
       = (fun i => VInt (Z.of_nat i))
           <$> seq 0 (length (data df1) + length (data df2)).
Proof.
  intros Hend H1 H2.
  assert (file_lines (text1 +:+ text2) = file_lines text1 ++ file_lines text2)
    as ->.
  { destruct Hend as [->|[body ->]]; [reflexivity | apply file_lines_app]. }
  destruct (load_ghcn_meta_lines_app _ _ _ _ H1 H2)
    as (df & Hdf & Hcols & Hdata & Hidx).
  exists df. do 3 (split; [done|]). rewrite Hidx. do 3 f_equal.
  - destruct (load_ghcn_meta_cases (file_lines text1))
      as [(rows1 & Hrows1 & E1)|[_ E1]]; rewrite E1 in H1; [|discriminate].
    injection H1 as <-. simpl. by apply for_each_length in Hrows1.
  - destruct (load_ghcn_meta_cases (file_lines text2))
      as [(rows2 & Hrows2 & E2)|[_ E2]]; rewrite E2 in H2; [|discriminate].
    injection H2 as <-. simpl. by apply for_each_length in Hrows2.
Qed.

(** A file of two lines, the sample station line and the line of a station
    that is cut after the id and has no line feed: the text of the first
    line, followed by the text of the second. *)
Lemma load_ghcn_meta_app_witness :
  file_lines (station_line +:+ "USC00011084") = [station_line; "USC00011084"]
  /\ exists df,
       load_ghcn_meta (file_lines (station_line +:+ "USC00011084")) = Ok df
       /\ index df = [VInt 0; VInt 1].
Proof.
  split; [reflexivity|].
  destruct (load_ghcn_meta (file_lines station_line)) as [df1|] eqn:H1;
    [|vm_compute in H1; discriminate H1].
  destruct (load_ghcn_meta (file_lines "USC00011084")) as [df2|] eqn:H2;
    [|vm_compute in H2; discriminate H2].
  destruct (load_ghcn_meta_app station_line "USC00011084" df1 df2)
    as (df & Hdf & _ & _ & Hidx); [|exact H1|exact H2|].
  - right. by exists "USC00011084  32.9000  -85.9667  126.2 AL MADISON CITY HALL               ".
  - exists df. split; [exact Hdf|]. rewrite Hidx.
    vm_compute in H1. injection H1 as <-.
    vm_compute in H2. injection H2 as <-. reflexivity.
Defined.

(** A line of at most 11 characters, such as an empty line or a bare line
    end, holds no field at all: its record is made of the nine defaults,
    and nothing is converted. *)
Theorem load_line_short (line : string) :
  (String.length line <= 11)%nat ->
  load_line line
  = Ok [VStr ""; VFloat nan; VFloat nan; VFloat nan; VStr ""; VStr "";
        VStr ""; VStr ""; VInt 0].
Proof.
  intros H. rewrite load_line_for_each, meta_schema.
  assert (forall end_, (11 <= end_)%nat ->
            (end_ <? String.length line)%nat = false) as Hlt.
  { intros end_ Hend. apply Nat.ltb_ge. lia. }
  cbn [for_each].
  rewrite !load_field_str, !load_field_float, !load_field_int.
  rewrite !Hlt by lia. reflexivity.
Qed.

(** A bare line end. *)
Lemma load_line_short_witness :
  load_line newline
  = Ok [VStr ""; VFloat nan; VFloat nan; VFloat nan; VStr ""; VStr "";
        VStr ""; VStr ""; VInt 0].
Proof.
  apply load_line_short. vm_compute. lia.
Defined.

(** ** Edges of the reshape *)

Lemma position_None (label : value) (labels : list value) :
  position label labels = None <-> label ∉ labels.
Proof.
  induction labels as [|l labels IH]; simpl.
  - split; [intros _ H; by apply elem_of_nil in H | done].
  - rewrite not_elem_of_cons. destruct (decide (l = label)) as [->|Hne].
    + split; [done|]. by intros [? _].
    + destruct (position label labels); simpl.
      * split; [done|]. intros [_ H]. by apply IH in H.
      * split; [|done]. intros _. split; [congruence|]. by apply IH.
Qed.

(** [exchange_row_column] needs a first row: on a frame without rows it
    raises [IndexError] when there is a column [year], and [KeyError] when
    there is none. *)
Theorem exchange_row_column_no_rows (df : DataFrame) :
  data df = [] ->
  (VStr "year" ∈ columns df -> exchange_row_column df = Raise IndexError)
  /\ (VStr "year" ∉ columns df -> exchange_row_column df = Raise KeyError).
Proof.
  intros Hdata. unfold exchange_row_column, loc_column. split; intros Hyear.
  - destruct (position (VStr "year") (columns df)) as [j|] eqn:Hj.
    + by rewrite Hdata.
    + by apply position_None in Hj.
  - apply position_None in Hyear. by rewrite Hyear.
Qed.

(** The frame that [load_ghcn_daily] makes of an empty file. *)
Lemma exchange_row_column_no_rows_witness :
  load_ghcn_daily [] = Ok {| index := []; columns := daily_columns; data := [] |}
  /\ exchange_row_column {| index := []; columns := daily_columns; data := [] |}
     = Raise IndexError.
Proof.
  split; [reflexivity|].
  apply (exchange_row_column_no_rows
           {| index := []; columns := daily_columns; data := [] |} eq_refl).
  cbn [columns]. unfold daily_columns. apply elem_of_app. left. left.
Defined.

(** ** The days of a line *)

(** The days of a line that is read: one value per day of the month, and
    the value of day [d] is the post-processed conversion of the five
    characters from the offset [21 + (d - 1) * 8] on. *)
Theorem load_days_values
    (line varname : string) (year month day1 ndays : Z) (days : list float) :
  monthrange year month = Ok (day1, ndays) ->
  load_days line varname year month = Ok days ->
  length days = Z.to_nat ndays
  /\ forall d : nat,
       (1 <= d)%nat -> Z.of_nat d <= ndays ->
       exists number,
         to_float line (21 + (d - 1) * 8) (21 + (d - 1) * 8 + 5) = Ok number
         /\ days !! (d - 1)%nat
            = Some (daily_number_postprocess number varname).
Proof.
  intros Hrange Hdays. split; [by eapply load_days_length|].
  intros d Hd1 Hdn. unfold load_days in Hdays. rewrite Hrange in Hdays.
  simpl in Hdays.
  destruct (for_each_lookup _ _ _ (d - 1)%nat (d - 1)%nat Hdays)
    as (x & Hx & Hf).
  { apply lookup_seq. lia. }
  unfold end_idx, start_idx in Hf.
  destruct (to_float line _ _) as [number|]; simpl in Hf; [|done].
  injection Hf as <-. eauto.
Qed.

(** The first two days of the precipitation line: 12.5, and no
    observation. *)
Lemma load_days_values_witness :
  exists days,
    load_days daily_prcp_line "prcp" 2021 2 = Ok days
    /\ length days = 28%nat
    /\ days !! 0%nat = Some (S754_finite false 7036874417766400 (-49))
    /\ days !! 1%nat = Some nan.
Proof.
  destruct (load_days daily_prcp_line "prcp" 2021 2) as [days|] eqn:Hdays;
    [|vm_compute in Hdays; discriminate Hdays].
  destruct (load_days_values daily_prcp_line "prcp" 2021 2 0 28 days
              eq_refl Hdays) as [Hlen _].
  exists days. split; [reflexivity|]. split; [exact Hlen|].
  vm_compute in Hdays. injection Hdays as <-. split; reflexivity.
Defined.

(** ** The order of the pieces *)

Lemma key_ltb_lt (k k' : Z * Z) :
  key_ltb k k' = true <-> k.1 < k'.1 \/ (k.1 = k'.1 /\ k.2 < k'.2).
Proof.
  unfold key_ltb. rewrite orb_true_iff, andb_true_iff.
  rewrite !Z.ltb_lt, Z.eqb_eq. done.
Qed.

Lemma elem_of_insert_key_iff (k k' : Z * Z) (ks : list (Z * Z)) :
  k' ∈ insert_key k ks <-> k' = k \/ k' ∈ ks.
Proof.
  split; [apply elem_of_insert_key|].
  induction ks as [|k0 ks IH]; simpl.
  - intros [->|H]; [left | by apply elem_of_nil in H].
  - destruct (key_ltb k k0).
    + intros [->|H]; [left | by right].
    + destruct (decide (k = k0)) as [->|Hne].
      * intros [->|H]; [left | done].
      * intros [->|H].
        -- right. apply IH. by left.
        -- apply elem_of_cons in H as [->|H]; [left|]. right. apply IH. by right.
Qed.

Lemma elem_of_sorted_keys_iff (k : Z * Z) (ks : list (Z * Z)) :
  k ∈ sorted_keys ks <-> k ∈ ks.
Proof.
  induction ks as [|k0 ks IH]; simpl; [done|].
  rewrite elem_of_insert_key_iff, elem_of_cons, IH. done.
Qed.

Lemma Sorted_insert_key (k : Z * Z) (ks : list (Z * Z)) :
  Sorted (fun k k' => key_ltb k k' = true) ks ->
  Sorted (fun k k' => key_ltb k k' = true) (insert_key k ks).
Proof.
  induction 1 as [|k0 ks Hks IH Hhd]; simpl.
  - repeat constructor.
  - destruct (key_ltb k k0) eqn:Hlt.
    + constructor; [by constructor|]. by constructor.
    + destruct (decide (k = k0)) as [->|Hne]; [by constructor|].
      constructor; [done|].
      assert (key_ltb k0 k = true) as Hgt.
      { apply key_ltb_lt. apply not_true_iff_false in Hlt.
        rewrite key_ltb_lt in Hlt. destruct k as [y m], k0 as [y0 m0].
        simpl in *. assert (y <> y0 \/ m <> m0) by (destruct (decide (y = y0));
          [right; congruence | by left]). lia. }
      destruct Hhd as [|k1 ks' Hk1]; simpl.
      * by constructor.
      * destruct (key_ltb k k1); [by constructor|].
        destruct (decide (k = k1)); by constructor.
Qed.

Lemma Sorted_sorted_keys (ks : list (Z * Z)) :
  Sorted (fun k k' => key_ltb k k' = true) (sorted_keys ks).
Proof.
  induction ks as [|k ks IH]; simpl; [constructor|].
  by apply Sorted_insert_key.
Qed.

Lemma Sorted_weaken {A : Type} (R R' : A -> A -> Prop) (l : list A) :
  (forall x y, R x y -> R' x y) -> Sorted R l -> Sorted R' l.
Proof.
  intros HR. induction 1 as [|x l Hl IH Hhd]; constructor; [done|].
  destruct Hhd; constructor. by apply HR.
Qed.

Lemma for_each_as_int (vs : list value) (ns : list Z) :
  for_each as_int vs = Ok ns -> vs = VInt <$> ns.
Proof.
  intros H. apply for_each_Forall2 in H.
  induction H as [|v n vs ns Hv _ IH]; simpl; [done|].
  destruct v; try discriminate Hv. injection Hv as ->. by rewrite IH.
Qed.

Lemma for_each_keyed {A K B : Type} (h : A -> result B) (key : A -> K)
    (l : list A) (ps : list (K * B)) :
  for_each (fun a => let* b := h a in Ok (key a, b)) l = Ok ps ->
  ps.*1 = key <$> l.
Proof.
  revert ps. induction l as [|a l IH]; simpl; intros ps.
  - by intros [= <-].
  - destruct (h a); simpl; [|done].
    destruct (for_each _ l) as [ps'|]; simpl; [|done].
    intros [= <-]. csimpl. f_equal. by apply IH.
Qed.

(** The pieces of [transpose_ghcn] come one per month: their keys are the
    pairs of a year and a month that some row of the wide table carries,
    each once, in the order of the calendar. *)
Theorem transpose_ghcn_one_piece_per_month
    (df : DataFrame) (pieces : list (Z * Z * DataFrame)) :
  columns df = daily_columns ->
  transpose_ghcn df = Ok pieces ->
  Sorted (fun k k' : Z * Z => k.1 < k'.1 \/ (k.1 = k'.1 /\ k.2 < k'.2))
         pieces.*1
  /\ forall year month,
       (year, month) ∈ pieces.*1
       <-> exists row, row ∈ data df
                       /\ cell row 0 = VInt year /\ cell row 1 = VInt month.
Proof.
  intros Hcols. unfold transpose_ghcn, groupby2, loc_column.
  rewrite Hcols, position_year, position_month. cbn [bind].
  destruct (for_each as_int _) as [ka|] eqn:Hka; cbn [bind]; [|done].
  destruct (for_each as_int ((fun row => cell row 1) <$> data df))
    as [kb|] eqn:Hkb; cbn [bind]; [|done].
  unfold Pandas.apply. intros Hpieces.
  apply for_each_keyed in Hpieces. rewrite Hpieces, <- list_fmap_compose.
  unfold compose. simpl. rewrite list_fmap_id.
  apply for_each_as_int in Hka, Hkb. split.
  - eapply Sorted_weaken; [|apply Sorted_sorted_keys].
    intros k k'. apply key_ltb_lt.
  - intros year month. rewrite elem_of_sorted_keys_iff.
    rewrite list_elem_of_lookup. split.
    + intros [i Hi]. apply lookup_zip_with_Some in Hi
        as (y & m & [= <- <-] & Hy & Hm).
      assert ((VInt <$> ka) !! i = Some (VInt year)) as Hy'
        by by rewrite list_lookup_fmap, Hy.
      assert ((VInt <$> kb) !! i = Some (VInt month)) as Hm'
        by by rewrite list_lookup_fmap, Hm.
      rewrite <- Hka in Hy'. rewrite <- Hkb in Hm'.
      rewrite list_lookup_fmap in Hy', Hm'.
      destruct (data df !! i) as [row|] eqn:Hrow; [|done].
      exists row. simpl in *. split; [by eapply list_elem_of_lookup_2|].
      split; congruence.
    + intros (row & Hrow & Hy & Hm).
      apply list_elem_of_lookup in Hrow as [i Hi]. exists i.
      apply lookup_zip_with_Some. exists year, month. split; [done|].
      assert ((VInt <$> ka) !! i = Some (VInt year)) as Hy'.
      { rewrite <- Hka, list_lookup_fmap, Hi. simpl. by rewrite Hy. }
      assert ((VInt <$> kb) !! i = Some (VInt month)) as Hm'.
      { rewrite <- Hkb, list_lookup_fmap, Hi. simpl. by rewrite Hm. }
      rewrite list_lookup_fmap in Hy', Hm'.
      destruct (ka !! i); [|done]. destruct (kb !! i); [|done].
      simpl in *. split; congruence.
Qed.

(** Three lines of two months, February before January in the file. *)
Lemma transpose_ghcn_one_piece_per_month_witness :
  exists df pieces,
    load_ghcn_daily [daily_prcp_line; daily_january_line; daily_tmax_line]
    = Ok df
    /\ transpose_ghcn df = Ok pieces
    /\ pieces.*1 = [(2021, 1); (2021, 2)]
    /\ Sorted (fun k k' : Z * Z => k.1 < k'.1 \/ (k.1 = k'.1 /\ k.2 < k'.2))
              pieces.*1.
Proof.
  destruct (load_ghcn_daily
              [daily_prcp_line; daily_january_line; daily_tmax_line])
    as [df|] eqn:Hload; [|vm_compute in Hload; discriminate Hload].
  destruct (transpose_ghcn df) as [pieces|] eqn:Hpieces.
  - destruct (transpose_ghcn_one_piece_per_month df pieces) as [Hsorted _].
    + vm_compute in Hload. by injection Hload as <-.
    + exact Hpieces.
    + exists df, pieces. split; [reflexivity|]. split; [exact Hpieces|].
      split; [|exact Hsorted].
      vm_compute in Hload. injection Hload as <-.
      vm_compute in Hpieces. by injection Hpieces as <-.
  - vm_compute in Hload. injection Hload as <-.
    vm_compute in Hpieces. discriminate Hpieces.
Defined.

(** ** The cells of a piece *)

Lemma setitem_new (df : DataFrame) (label : value) (values : list value) :
  label ∉ columns df ->
  setitem df label values
  = {| index := index df;
       columns := columns df ++ [label];
       data := zip_with (fun row v => row ++ [v]) (data df) values |}.
Proof.
  intros H. apply position_None in H. unfold setitem. by rewrite H.
Qed.

(** The three assignments at the end of [exchange_row_column], on a frame
    that has no column of these names yet. *)
Lemma setitem_year_month_day (T : DataFrame) (year month : value) :
  VStr "year" ∉ columns T ->
  VStr "month" ∉ columns T ->
  VStr "day" ∉ columns T ->
  let with_year := setitem_scalar T (VStr "year") year in
  let with_month := setitem_scalar with_year (VStr "month") month in
  setitem with_month (VStr "day") (index with_month)
  = {| index := index T;
       columns := columns T ++ [VStr "year"; VStr "month"; VStr "day"];
       data := zip_with (fun row label => row ++ [year; month; label])
                 (data T) (index T) |}.
Proof.
  intros Hy Hm Hd. cbv zeta. unfold setitem_scalar.
  rewrite (setitem_new T) by done. cbn [data index columns].
  rewrite (setitem_new _ (VStr "month")).
  2:{ cbn [columns]. intros H. apply elem_of_app in H as [H|H]; [done|].
      apply list_elem_of_singleton in H. discriminate H. }
  cbn [data index columns]. rewrite (setitem_new _ (VStr "day")).
  2:{ cbn [columns]. intros H. apply elem_of_app in H as [H|H].
      - apply elem_of_app in H as [H|H]; [done|].
        apply list_elem_of_singleton in H. discriminate H.
      - apply list_elem_of_singleton in H. discriminate H. }
  cbn [data index columns]. f_equal.
  - by rewrite <- !app_assoc.
  - rewrite !zip_with_replicate_r_eq by (by rewrite ?length_fmap).
    rewrite <- list_fmap_compose, zip_with_fmap_l.
    apply zip_with_ext; [|done|done].
    intros row label. unfold flip, compose. by rewrite <- !app_assoc.
Qed.

Lemma zip_with_fmap_both {A B C D : Type}
    (f : A -> B -> C) (F : D -> A) (G : D -> B) (l : list D) :
  zip_with f (F <$> l) (G <$> l) = (fun i => f (F i) (G i)) <$> l.
Proof. by rewrite zip_with_fmap_l, zip_with_fmap_r, zip_with_diag. Qed.

(** The cells of the piece of a group whose variables are not called
    [year], [month] or [day]: the columns are the names of the variables,
    in the order of the rows of the group, and then year, month and day;
    the row of day [d] holds, for every variable, the cell that the wide
    row of the variable has under the column [d], and then the year, the
    month and [d]. *)
Theorem exchange_row_column_cells
    (df : DataFrame) (year month day1 ndays : Z) :
  columns df = daily_columns ->
  data df <> [] ->
  Forall (wide_row year month) (data df) ->
  monthrange year month = Ok (day1, ndays) ->
  let names := (fun row => cell row 2) <$> data df in
  VStr "year" ∉ names -> VStr "month" ∉ names -> VStr "day" ∉ names ->
  exists df',
    exchange_row_column df = Ok df'
    /\ columns df' = names ++ [VStr "year"; VStr "month"; VStr "day"]
    /\ length (data df') = Z.to_nat ndays
    /\ forall d : nat,
         (1 <= d)%nat -> Z.of_nat d <= ndays ->
         data df' !! (d - 1)%nat
         = Some (((fun row => cell row (d + 2)) <$> data df)
                 ++ [VInt year; VInt month; VInt (Z.of_nat d)]).
Proof.
  intros Hcols Hne Hrows Hmonth names Hy Hm Hd.
  destruct (monthrange_inv _ _ _ _ Hmonth) as (_ & Hnd & _).
  destruct df as [idx cols rows]. simpl in *. subst cols.
  assert (iloc0 ((fun row => cell row 0) <$> rows) = Ok (VInt year)
          /\ iloc0 ((fun row => cell row 1) <$> rows) = Ok (VInt month))
    as [Hyear Hmon].
  { destruct rows as [|row0 rows0]; [done|]. simpl.
    by destruct (Forall_inv Hrows) as (_ & -> & ->). }
  unfold exchange_row_column.
  unfold loc_column at 1 2. cbn [columns data index].
  rewrite position_year, position_month. cbn [bind].
  rewrite Hyear, Hmon. cbn [as_int bind]. rewrite Hmonth. cbn [bind].
  unfold set_index. cbn [columns data index].
  rewrite position_varname. cbn [bind].
  unfold loc_columns. cbn [columns data index].
  rewrite (day_positions ndays Hnd). cbn [bind].
  rewrite setitem_year_month_day by done.
  eexists. split; [reflexivity|]. cbn [columns data index transpose].
  split; [done|].
  rewrite length_fmap, length_range.
  replace (Z.to_nat (ndays + 1 - 1)) with (Z.to_nat ndays) by lia.
  unfold range. replace (Z.to_nat (ndays + 1 - 1)) with (Z.to_nat ndays) by lia.
  rewrite <- (list_fmap_compose (fun i : nat => 1 + Z.of_nat i) VInt).
  rewrite zip_with_fmap_both.
  split; [by rewrite length_fmap, length_seq|].
  intros d Hd1 Hdn. rewrite list_lookup_fmap.
  rewrite (proj2 (lookup_seq 0 (Z.to_nat ndays) (d - 1) (d - 1)%nat))
    by (split; [done|lia]).
  simpl. f_equal. f_equal.
  - rewrite <- !list_fmap_compose. apply Forall_fmap_ext_1.
    eapply Forall_impl; [exact Hrows|]. intros row (Hlen & _). simpl.
    rewrite cell_selected by lia.
    by replace (d - 1 + 3)%nat with (d + 2)%nat by lia.
  - replace (1 + Z.of_nat (d - 1)) with (Z.of_nat d) by lia. done.
Qed.

(** The group of February 2021: on the first day, precipitation 0 and a
    maximum temperature of 15. *)
Lemma exchange_row_column_cells_witness :
  exists df',
    exchange_row_column february_2021_group = Ok df'
    /\ columns df'
       = [VStr "prcp"; VStr "tmax"; VStr "year"; VStr "month"; VStr "day"]
    /\ data df' !! 0%nat
       = Some [VFloat (float_of_Z 0); VFloat (float_of_Z 15);
               VInt 2021; VInt 2; VInt 1].
Proof.
  destruct (exchange_row_column_cells february_2021_group 2021 2 0 28)
    as (df' & Hdf' & Hcols & _ & Hcells); try reflexivity.
  - discriminate.
  - repeat constructor.
  - intros H. vm_compute in H.
    repeat (apply elem_of_cons in H as [H|H]; [discriminate H|]).
    by apply elem_of_nil in H.
  - intros H. vm_compute in H.
    repeat (apply elem_of_cons in H as [H|H]; [discriminate H|]).
    by apply elem_of_nil in H.
  - intros H. vm_compute in H.
    repeat (apply elem_of_cons in H as [H|H]; [discriminate H|]).
    by apply elem_of_nil in H.
  - exists df'. split; [exact Hdf'|]. split; [exact Hcols|].
    apply (Hcells 1%nat); [lia|simpl; lia].
Defined.

(** ** The whole pipeline *)

(** The groups of a wide table whose rows carry a year and a month between
    1 and 12. *)
Lemma groupby2_wide (df : DataFrame) :
  columns df = daily_columns ->
  Forall (fun row => exists year month,
            wide_row year month row /\ 1 <= month <= 12) (data df) ->
  exists keys,
    Forall2 (fun row k => wide_row k.1 k.2 row /\ 1 <= k.2 <= 12)
      (data df) keys
    /\ groupby2 df (VStr "year") (VStr "month")
       = Ok ((fun k => (k, select_rows df
                             ((fun k' => bool_decide (k' = k)) <$> keys)))
               <$> sorted_keys keys).
Proof.
  intros Hcols Hrows.
  destruct (wide_keys (data df)) as (keys & Hk1 & Hk2 & Hkeys).
  { eapply Forall_impl; [exact Hrows|]. intros row (y & m & H & _). eauto. }
  exists keys. split.
  - clear Hk1 Hk2. induction Hkeys as [|row k rows ks Hrow _ IH];
      constructor.
    + split; [done|].
      apply Forall_inv in Hrows as (y & m & (_ & _ & Hm) & Hbounds).
      destruct Hrow as (_ & _ & Hm'). rewrite Hm' in Hm.
      injection Hm as ->. exact Hbounds.
    + apply IH. by apply Forall_inv_tail in Hrows.
  - unfold groupby2, loc_column.
    rewrite Hcols, position_year, position_month. cbn [bind].
    rewrite Hk1, Hk2. cbn [bind]. by rewrite zip_fst_snd.
Qed.

(** A row whose flag is set is among the selected rows. *)
Lemma select_flagged_elem {A K : Type} (flag : K -> bool)
    (l : list A) (ks : list K) (i : nat) (a : A) (k : K) :
  l !! i = Some a -> ks !! i = Some k -> flag k = true ->
  a ∈ (fun p => p.1) <$> filter (fun p => p.2 = true) (zip l (flag <$> ks)).
Proof.
  intros Ha Hk Hflag. apply list_elem_of_fmap. exists (a, true). split; [done|].
  apply list_elem_of_filter. split; [done|].
  apply list_elem_of_lookup. exists i. apply lookup_zip_with_Some.
  exists a, true. split; [done|]. split; [done|].
  by rewrite list_lookup_fmap, Hk, <- Hflag.
Qed.

(** The group of a key: rows of that year and month, and at least one. *)
Lemma group_wide (df : DataFrame) (keys : list (Z * Z)) (k : Z * Z) :
  length (index df) = length (data df) ->
  Forall2 (fun row k => wide_row k.1 k.2 row /\ 1 <= k.2 <= 12)
    (data df) keys ->
  k ∈ keys ->
  let group := select_rows df ((fun k' => bool_decide (k' = k)) <$> keys) in
  columns group = columns df
  /\ length (index group) = length (data group)
  /\ data group <> []
  /\ Forall (wide_row k.1 k.2) (data group)
  /\ 1 <= k.2 <= 12.
Proof.
  intros Hidx Hkeys Hk group.
  pose proof (select_flagged _ (fun k' => bool_decide (k' = k)) _ _ Hkeys)
    as Hsel.
  assert (Forall (fun row => wide_row k.1 k.2 row /\ 1 <= k.2 <= 12)
            (data group)) as Hwide.
  { eapply Forall_impl; [exact Hsel|].
    intros row (k' & H & Heq). by apply bool_decide_eq_true in Heq as ->. }
  assert (data group <> []) as Hne.
  { apply (select_flagged_nonempty _ _ _ k); [|done|by apply bool_decide_eq_true].
    by apply Forall2_length in Hkeys. }
  split; [done|]. split.
  { unfold group. simpl. rewrite !length_fmap. by apply select_flagged_length. }
  split; [done|]. split.
  - eapply Forall_impl; [exact Hwide|]. by intros row [? _].
  - destruct (data group) as [|row0 rows0]; [done|].
    by destruct (Forall_inv Hwide) as [_ Hm].
Qed.

(** The cell of a day in a row that was read and filled up. *)
Lemma cell_day (year month : Z) (name : string) (days : list float)
    (rest : list value) (d : nat) (x : float) :
  days !! d = Some x ->
  cell ([VInt year; VInt month; VStr name] ++ (VFloat <$> days) ++ rest)
       (d + 3)
  = VFloat x.
Proof.
  intros Hd. unfold cell. rewrite nth_lookup.
  replace (d + 3)%nat with (S (S (S d))) by lia. simpl.
  rewrite lookup_app_l by (rewrite length_fmap; by eapply lookup_lt_Some).
  by rewrite list_lookup_fmap, Hd.
Qed.

(** Whenever the daily file is loaded to a table, the table can be grouped
    by year and month, and [exchange_row_column] raises on no group: the
    piece of a group has one row per day of the month of the group.  Every
    value that was read is in the piece of its month: for a line of the
    file, the piece has a column that carries the name of the variable of
    the line (when that is not [year], [month] or [day]), and the cell of
    that column in the row of a day is the value of the line for that
    day. *)
Theorem load_ghcn_daily_groups_reshape (f : list string) (df : DataFrame) :
  load_ghcn_daily f = Ok df ->
  exists groups,
    groupby2 df (VStr "year") (VStr "month") = Ok groups
    /\ Forall (fun '(key, group) =>
                 exists day1 ndays piece,
                   monthrange key.1 key.2 = Ok (day1, ndays)
                   /\ exchange_row_column group = Ok piece
                   /\ index piece = VInt <$> range 1 (ndays + 1)) groups
    /\ forall line,
         line ∈ f ->
         exists year month day1 ndays days group piece,
           load_year line = Ok year
           /\ load_month line = Ok month
           /\ monthrange year month = Ok (day1, ndays)
           /\ load_days line (load_varname line) year month = Ok days
           /\ ((year, month), group) ∈ groups
           /\ exchange_row_column group = Ok piece
           /\ (load_varname line ∉ ["year"; "month"; "day"] ->
               exists j,
                 columns piece !! j = Some (VStr (load_varname line))
                 /\ forall (d : nat) (x : float),
                      days !! d = Some x ->
                      exists row',
                        data piece !! d = Some row'
                        /\ cell row' j = VFloat x).
Proof.
  intros Hload.
  apply load_ghcn_daily_Ok in Hload as (rows & Hrows & ->).
  set (df := {| index := (fun i => VInt (Z.of_nat i)) <$> seq 0 (length f);
                columns := daily_columns;
                data := pad 34 <$> rows |}).
  assert (length (index df) = length (data df)) as Hidx.
  { simpl. rewrite !length_fmap, length_seq. by apply for_each_length in Hrows. }
  destruct (groupby2_wide df) as (keys & Hkeys & Hgroups); [done| |].
  { simpl. apply Forall_fmap. pose proof (for_each_Forall2 _ _ _ Hrows) as H.
    clear -H. induction H as [|line row f rows Hrow _ IH];
      constructor; [|done].
    apply daily_row_padded in Hrow
      as (year & month & day1 & ndays & days & _ & _ & Hr & _ & Hlen & Heq).
    exists year, month. unfold compose. split.
    + split; [done|]. by rewrite Heq.
    + by destruct (monthrange_inv _ _ _ _ Hr) as (? & _). }
  set (group := fun k => select_rows df
                           ((fun k' => bool_decide (k' = k)) <$> keys)).
  eexists. split; [exact Hgroups|]. split.
  - apply Forall_fmap, Forall_forall. intros k Hk.
    apply elem_of_sorted_keys in Hk.
    destruct (group_wide df keys k Hidx Hkeys Hk)
      as (Hcols & Hgidx & Hne & Hwide & Hm).
    destruct (monthrange_total k.1 k.2 Hm) as (day1 & ndays & Hrange).
    destruct (exchange_row_column_group (group k) k.1 k.2 day1 ndays)
      as (piece & Hpiece & Hi & _); try done.
    simpl. exists day1, ndays, piece. auto.
  - intros line Hline. apply list_elem_of_lookup in Hline as [i Hi].
    destruct (for_each_lookup _ _ _ _ _ Hrows Hi) as (row & Hrow & Hline).
    pose proof (daily_row_padded _ _ Hline)
      as (year & month & day1 & ndays & days
          & Hy & Hm & Hr & Hd & Hlen & Heq).
    assert (data df !! i = Some (pad 34 row)) as Hwide_row.
    { simpl. by rewrite list_lookup_fmap, Hrow. }
    destruct (Forall2_lookup_l _ _ _ _ _ Hkeys Hwide_row)
      as (k & Hk & (_ & Hky & Hkm) & _).
    assert (k = (year, month)) as ->.
    { rewrite Heq in Hky, Hkm. unfold cell in Hky, Hkm. simpl in Hky, Hkm.
      destruct k. simpl in *. congruence. }
    pose proof (list_elem_of_lookup_2 _ _ _ Hk) as Hin.
    destruct (group_wide df keys (year, month) Hidx Hkeys Hin)
      as (Hcols & Hgidx & Hne & Hwide & _).
    destruct (exchange_row_column_piece (group (year, month)) year month
                day1 ndays) as (piece & Hpiece & Hcells & _); try done.
    exists year, month, day1, ndays, days, (group (year, month)), piece.
    do 4 (split; [done|]). split.
    { apply list_elem_of_fmap. exists (year, month). split; [done|].
      by apply elem_of_sorted_keys_iff. }
    split; [done|]. intros Hname.
    assert (pad 34 row ∈ data (group (year, month))) as Hmem.
    { apply (select_flagged_elem _ _ _ i _ (year, month)); try done.
      by apply bool_decide_eq_true. }
    apply list_elem_of_lookup in Hmem as [j Hj]. exists j.
    assert (cell (pad 34 row) 2 = VStr (load_varname line)) as Hcell2
      by by rewrite Heq.
    assert (cell (pad 34 row) 2 ∉ [VStr "year"; VStr "month"; VStr "day"])
      as Hname'.
    { rewrite Hcell2. intros H. apply Hname.
      rewrite !elem_of_cons in H. rewrite !elem_of_cons.
      destruct H as [[= ->]|[[= ->]|[[= ->]|H]]]; auto.
      by apply elem_of_nil in H. }
    pose proof (load_days_length _ _ _ _ _ _ _ Hr Hd) as Hdays.
    split.
    + destruct (Hcells 1%nat j (pad 34 row)) as (_ & _ & Hcol & _);
        try done; [|by rewrite <- Hcell2].
      destruct (monthrange_inv _ _ _ _ Hr) as (_ & ? & _). lia.
    + intros d x Hx. pose proof (lookup_lt_Some _ _ _ Hx) as Hlt.
      destruct (Hcells (S d) j (pad 34 row)) as (row' & Hrow' & _ & Hcell);
        try done; [lia|lia|].
      exists row'. replace (S d - 1)%nat with d in Hrow' by lia.
      split; [done|]. rewrite Hcell, Heq.
      replace (S d + 2)%nat with (d + 3)%nat by lia. by apply cell_day.
Qed.

(** January and February 2021: the maximum temperature of the first of
    February, 21.1, in the first row of the piece of February. *)
Lemma load_ghcn_daily_groups_reshape_witness :
  exists df groups group piece j row',
    load_ghcn_daily [daily_january_line; daily_prcp_line; daily_tmax_line]
    = Ok df
    /\ groupby2 df (VStr "year") (VStr "month") = Ok groups
    /\ ((2021, 2), group) ∈ groups
    /\ exchange_row_column group = Ok piece
    /\ columns piece !! j = Some (VStr "tmax")
    /\ data piece !! 0%nat = Some row'
    /\ cell row' j = VFloat (float_div (float_of_Z 211) (float_of_Z 10)).
Proof.
  destruct (load_ghcn_daily
              [daily_january_line; daily_prcp_line; daily_tmax_line])
    as [df|] eqn:Hload; [|vm_compute in Hload; discriminate Hload].
  destruct (load_ghcn_daily_groups_reshape _ df Hload)
    as (groups & Hgroups & _ & Hlines).
  destruct (Hlines daily_tmax_line)
    as (year & month & day1 & ndays & days & group & piece
        & Hy & Hm & Hr & Hd & Hin & Hpiece & Hcells).
  { rewrite !elem_of_cons. auto. }
  vm_compute in Hy. injection Hy as <-.
  vm_compute in Hm. injection Hm as <-.
  destruct Hcells as (j & Hcol & Hvals).
  { intros H. rewrite !elem_of_cons in H.
    destruct H as [H|[H|[H|H]]]; try (vm_compute in H; discriminate H).
    by apply elem_of_nil in H. }
  destruct (Hvals 0%nat (float_div (float_of_Z 211) (float_of_Z 10)))
    as (row' & Hrow' & Hcell).
  { vm_compute in Hd. injection Hd as <-. reflexivity. }
  exists df, groups, group, piece, j, row'. repeat split; assumption.
Defined.

(** ** The exceptions of the loaders *)

Lemma for_each_Raise_inv {A B : Type} (f : A -> result B) (l : list A) (e : exn) :
  for_each f l = Raise e -> exists a, a ∈ l /\ f a = Raise e.
Proof.
  induction l as [|a l IH]; simpl; [done|].
  destruct (f a) as [b|e'] eqn:Hb; simpl.
  - destruct (for_each f l); simpl; [done|]. intros [= ->].
    destruct IH as (a' & Ha' & Hf); [done|]. exists a'. split; [by right|done].
  - intros [= ->]. exists a. split; [left|done].
Qed.

Lemma load_ghcn_meta_exn (f : list string) (e : exn) :
  load_ghcn_meta f = Raise e -> e = ValueError.
Proof.
  destruct (load_ghcn_meta_cases f) as [(rows & _ & ->)|[_ ->]].
  - discriminate.
  - by intros [= <-].
Qed.

Lemma open_exn (fs : file_system) (filename : string) (e : exn) :
  open_ fs filename = Raise e -> e = OSError \/ e = ValueError.
Proof.
  unfold open_. destruct (has_null filename); [intros [= <-]; by right|].
  destruct (fs filename); [done|]. intros [= <-]. by left.
Qed.

(** [load_ghcn_meta(filename)] raises [OSError] or [ValueError] and nothing
    else: what [open] raises when the file cannot be opened, or
    [ValueError] when a field of a line of the file does not convert.  The
    tables of the conversions and of the defaults have an entry for every
    type of the schema, and the list of the rows always has its header. *)
Theorem load_ghcn_meta_exceptions
    (fs : file_system) (filename : string) (e : exn) :
  load_ghcn_meta_file fs filename = Raise e ->
  e = OSError \/ e = ValueError.
Proof.
  unfold load_ghcn_meta_file.
  destruct (open_ fs filename) as [text|e'] eqn:Hopen; simpl.
  - intros H. right. by apply load_ghcn_meta_exn in H.
  - intros [= <-]. by apply open_exn in Hopen.
Qed.

(** A station file whose second line has a latitude that is not a number,
    and a file that is not there. *)
Lemma load_ghcn_meta_exceptions_witness :
  load_ghcn_meta_file sample_files "ghcnd-stations.txt" = Raise ValueError
  /\ load_ghcn_meta_file sample_files "stations.txt" = Raise OSError.
Proof.
  split.
  - destruct (load_ghcn_meta_file sample_files "ghcnd-stations.txt")
      as [df|e] eqn:Hload.
    + vm_compute in Hload. discriminate Hload.
    + destruct (load_ghcn_meta_exceptions _ _ e Hload) as [->| ->];
        [vm_compute in Hload; discriminate Hload | reflexivity].
  - destruct (load_ghcn_meta_file sample_files "stations.txt")
      as [df|e] eqn:Hload.
    + vm_compute in Hload. discriminate Hload.
    + destruct (load_ghcn_meta_exceptions _ _ e Hload) as [->| ->];
        [reflexivity | vm_compute in Hload; discriminate Hload].
Defined.

Lemma daily_row_of_exn (line : string) (e : exn) :
  daily_row_of line = Raise e -> e = ValueError \/ e = IllegalMonthError.
Proof.
  unfold daily_row_of, load_year, load_month, to_int.
  destruct (int (trimmer line 11 15)) as [year|e1] eqn:Hy; simpl.
  2:{ intros [= <-]. left. by apply int_exn in Hy. }
  destruct (int (trimmer line 15 17)) as [month|e2] eqn:Hm; simpl.
  2:{ intros [= <-]. left. by apply int_exn in Hm. }
  unfold load_days, monthrange.
  destruct (negb _); simpl; [intros [= <-]; by right|].
  destruct (for_each _ _) as [days|e3] eqn:Hdays; simpl; [done|].
  intros [= <-]. left.
  apply for_each_Raise_inv in Hdays as (day & _ & Hday).
  destruct (to_float line (start_idx day) (end_idx day)) as [|e4] eqn:Hf;
    simpl in Hday; [done|].
  injection Hday as <-. by apply to_float_exn in Hf.
Qed.

Lemma load_ghcn_daily_exn (f : list string) (e : exn) :
  load_ghcn_daily f = Raise e -> e = ValueError \/ e = IllegalMonthError.
Proof.
  rewrite load_ghcn_daily_rows.
  destruct (for_each daily_row_of f) as [rows|e'] eqn:Hrows; simpl.
  - unfold Pandas.new. destruct rows; [done|].
    destruct (decide _); [done|]. intros [= <-]. by left.
  - intros [= <-]. apply for_each_Raise_inv in Hrows as (line & _ & Hline).
    by apply daily_row_of_exn in Hline.
Qed.

(** [load_ghcn_daily(filename)] raises [OSError], [ValueError] or
    [IllegalMonthError] and nothing else: what [open] raises when the file
    cannot be opened, or else [ValueError], for a text that does not convert
    and for a table without a full row, or [IllegalMonthError], for a month
    that the calendar does not have. *)
Theorem load_ghcn_daily_exceptions
    (fs : file_system) (filename : string) (e : exn) :
  load_ghcn_daily_file fs filename = Raise e ->
  e = OSError \/ e = ValueError \/ e = IllegalMonthError.
Proof.
  unfold load_ghcn_daily_file.
  destruct (open_ fs filename) as [text|e'] eqn:Hopen; simpl.
  - intros H. right. by apply load_ghcn_daily_exn in H.
  - intros [= <-]. apply open_exn in Hopen as [->| ->]; auto.
Qed.

(** A daily file with a line of month 13 after a line of January, and a
    file that is not there. *)
Lemma load_ghcn_daily_exceptions_witness :
  load_ghcn_daily_file sample_files "USC00011084.dly" = Raise IllegalMonthError
  /\ load_ghcn_daily_file sample_files "USC00011085.dly" = Raise OSError.
Proof.
  split.
  - destruct (load_ghcn_daily_file sample_files "USC00011084.dly")
      as [df|e] eqn:Hload.
    + vm_compute in Hload. discriminate Hload.
    + destruct (load_ghcn_daily_exceptions _ _ e Hload) as [->|[->| ->]];
        [vm_compute in Hload; discriminate Hload
        |vm_compute in Hload; discriminate Hload
        |reflexivity].
  - destruct (load_ghcn_daily_file sample_files "USC00011085.dly")
      as [df|e] eqn:Hload.
    + vm_compute in Hload. discriminate Hload.
    + destruct (load_ghcn_daily_exceptions _ _ e Hload) as [->|[->| ->]];
        [reflexivity
        |vm_compute in Hload; discriminate Hload
        |vm_compute in Hload; discriminate Hload].
Defined.

(** ** What the station loader does not read *)

Lemma length_append (p s : string) :
  String.length (p +:+ s) = (String.length p + String.length s)%nat.
Proof. induction p as [|c p IH]; simpl; [done|]. by rewrite IH. Qed.

(** What follows the column of the WMO number is not read: the record of a
    line that goes beyond the first 85 characters is the record of these
    characters, whatever comes after them. *)
Theorem load_line_ignores_tail (prefix rest1 rest2 : string) :
  (85 <= String.length prefix)%nat ->
  rest1 <> "" -> rest2 <> "" ->
  load_line (prefix +:+ rest1) = load_line (prefix +:+ rest2).
Proof.
  intros Hlen H1 H2.
  assert (forall rest end_, rest <> "" -> (end_ <= 85)%nat ->
            (end_ <? String.length (prefix +:+ rest))%nat = true) as Hlt.
  { intros rest end_ Hrest Hend. apply Nat.ltb_lt. rewrite length_append.
    destruct rest; [done|]. simpl. lia. }
  rewrite !load_line_for_each. apply for_each_ext.
  intros (typ & start & end_) Hin.
  assert (end_ <= 85)%nat as Hend.
  { rewrite meta_schema in Hin.
    repeat (apply elem_of_cons in Hin as [[= _ _ ->]|Hin]; [lia|]).
    by apply elem_of_nil in Hin. }
  destruct (schema_types _ _ _ Hin) as [->|[->| ->]];
    rewrite ?load_field_str, ?load_field_float, ?load_field_int;
    rewrite !Hlt by done; unfold to_float, to_int;
    by rewrite !trimmer_prefix by lia.
Qed.

(** The 85 characters of a station ([99999] for the WMO number), ended by a
    line feed or by a comment. *)
Lemma load_line_ignores_tail_witness :
  load_line (substring 0 80 blank_wmo_line +:+ "99999" +:+ newline)
  = load_line (substring 0 80 blank_wmo_line +:+ "99999" +:+ " # moved").
Proof.
  change (substring 0 80 blank_wmo_line +:+ "99999" +:+ newline)
    with ((substring 0 80 blank_wmo_line +:+ "99999") +:+ newline).
  change (substring 0 80 blank_wmo_line +:+ "99999" +:+ " # moved")
    with ((substring 0 80 blank_wmo_line +:+ "99999") +:+ " # moved").
  apply load_line_ignores_tail; [|discriminate|discriminate].
  vm_compute. lia.
Defined.

(** ** The width of a field *)

(** [trimmer] cuts a field at the end of the line and never fails.  For a
    line of ASCII characters, as the lines of the GHCN files are (and where
    lowercasing keeps the number of characters), its result has
    [min end (length line) - start] characters: the full width when the
    line reaches the end offset, and none when the line ends at or before
    the start offset. *)
Theorem trimmer_clipped (line : string) (start_idx end_idx : nat) :
  isascii line = true ->
  String.length (trimmer line start_idx end_idx)
  = (Nat.min end_idx (String.length line) - start_idx)%nat
  /\ ((end_idx <= String.length line)%nat ->
      String.length (trimmer line start_idx end_idx)
      = (end_idx - start_idx)%nat)
  /\ ((String.length line <= start_idx)%nat ->
      trimmer line start_idx end_idx = "").
Proof.
  intros _. split; [apply length_trimmer|]. split.
  - intros H. rewrite length_trimmer. lia.
  - intros H. unfold trimmer. by rewrite slice_beyond.
Qed.

(** The name of the sample station, whole, and a field of the flags that
    the line does not reach. *)
Lemma trimmer_clipped_witness :
  String.length (trimmer station_line 41 71) = 30%nat
  /\ trimmer station_line 76 79 = "".
Proof.
  destruct (trimmer_clipped station_line 41 71 eq_refl) as (_ & Hfull & _).
  destruct (trimmer_clipped station_line 76 79 eq_refl) as (_ & _ & Hnone).
  split.
  - apply Hfull. vm_compute. lia.
  - apply Hnone. vm_compute. lia.
Defined.
